(** * server: one service on an HTTP listener and a gRPC listener

    A shallow embedding of [server/server.go] and a verification of its
    specification.

    Every Go package the file calls is a module below that keeps the Go names.
    Code that runs for one request returns the response together with what the
    request made observable (log lines, histogram samples, spans).  Code of
    the life cycle ([New], [Run], [Stop]) passes a [World] along: the clock,
    the bound ports, the process-wide metrics registry, the live goroutines,
    the contexts and a journal of what happened when. *)

From stdpp Require Import gmap strings list.
From Stdlib Require Import ZArith Lia.

Local Open Scope Z_scope.

(** ** What a request makes observable *)

(** The [status_code] label of a sample. *)
Inductive StatusLabel :=
| HTTPStatus (code : Z)
| RPCSuccess
| RPCError.

Inductive Event :=
| LogLine (subject : string) (failed : bool)
| Observe (histogram method route : string) (status : StatusLabel) (ws : bool)
| SpanStart (operation : string)
| SpanFinish (operation : string)
| Mark (tag : string).




(** ** The world of the life cycle *)

(** A bound [net.Listener]. *)
Record Listener := { port : Z }.

Inductive Goroutine :=
| HTTPServe (l : Listener)
| GRPCServe (l : Listener)
| ShutdownTimer (wake : Z) (ctx : nat).

Inductive Action :=
| Bound (p : Z)
| Registered (metric : string)
| Go (g : Goroutine)
| BridgeRegistered
| LoopReturned
| GracefulStopCalled
| GracefulStopReturned
| ShutdownCalled
| ShutdownReturned
| CancelCalled (ctx : nat)
| StopCalled
| RunReturned.

#[global] Instance Listener_eq_dec : EqDecision Listener.
Proof. solve_decision. Defined.

#[global] Instance Goroutine_eq_dec : EqDecision Goroutine.
Proof. solve_decision. Defined.

#[global] Instance Action_eq_dec : EqDecision Action.
Proof. solve_decision. Defined.

Record World := {
  (** the time, in nanoseconds *)
  clock : Z;
  (** the TCP ports that have a listener *)
  listening : gset Z;
  (** the names in the process-wide metrics registry *)
  DefaultRegisterer : gset string;
  (** the goroutines started with [go] that have not finished *)
  goroutines : list Goroutine;
  (** the cancellable contexts made so far, and whether each is cancelled *)
  contexts : list bool;
  (** what happened, and when, oldest first *)
  journal : list (Z * Action)
}.

Definition set_clock (t : Z) (w : World) : World :=
  {| clock := t; listening := listening w; DefaultRegisterer := DefaultRegisterer w;
     goroutines := goroutines w; contexts := contexts w; journal := journal w |}.

Definition set_listening (l : gset Z) (w : World) : World :=
  {| clock := clock w; listening := l; DefaultRegisterer := DefaultRegisterer w;
     goroutines := goroutines w; contexts := contexts w; journal := journal w |}.

Definition set_DefaultRegisterer (r : gset string) (w : World) : World :=
  {| clock := clock w; listening := listening w; DefaultRegisterer := r;
     goroutines := goroutines w; contexts := contexts w; journal := journal w |}.

Definition set_goroutines (g : list Goroutine) (w : World) : World :=
  {| clock := clock w; listening := listening w; DefaultRegisterer := DefaultRegisterer w;
     goroutines := g; contexts := contexts w; journal := journal w |}.

Definition set_contexts (c : list bool) (w : World) : World :=
  {| clock := clock w; listening := listening w; DefaultRegisterer := DefaultRegisterer w;
     goroutines := goroutines w; contexts := c; journal := journal w |}.

Definition set_journal (j : list (Z * Action)) (w : World) : World :=
  {| clock := clock w; listening := listening w; DefaultRegisterer := DefaultRegisterer w;
     goroutines := goroutines w; contexts := contexts w; journal := j |}.

(** An entry in the journal, at the present time. *)
Definition note (a : Action) (w : World) : World :=
  set_journal (journal w ++ [(clock w, a)]) w.

(** The [go] statement. *)
Definition go (g : Goroutine) (w : World) : World :=
  note (Go g) (set_goroutines (goroutines w ++ [g]) w).

(** Closing a listener frees its port and ends the goroutine that serves it. *)
Definition close (l : Listener) (w : World) : World :=
  set_goroutines
    (List.filter (fun g => negb (bool_decide (g = HTTPServe l) || bool_decide (g = GRPCServe l)))
                 (goroutines w))
    (set_listening (listening w ∖ {[port l]}) w).

(** What the surroundings of the server do: when the stop signal comes, and
    when the calls in flight are over.  [None] is never. *)
Record Env := {
  (** SIGINT or SIGTERM is delivered, or another task calls [Stop] *)
  stopAt : option Z;
  (** the calls in flight on the RPC server have all returned, when no new
      call is accepted from the given time on *)
  rpcDrained : Z -> option Z;
  (** the connections of the HTTP server are all idle, when no new
      connection is accepted from the given time on *)
  httpDrained : Z -> option Z
}.

(** The earlier of two times, [None] being never. *)
Definition earliest (a b : option Z) : option Z :=
  match a, b with
  | Some x, Some y => Some (Z.min x y)
  | Some x, None => Some x
  | None, b => b
  end.

(** ** net *)
Module net.

Inductive error :=
| AddrInUse (p : Z)
| InvalidPort (p : Z).

(** The port the system picks for [":0"]: the first free one of the
    dynamic range. *)
Definition ephemeral (used : gset Z) : Z :=
  default 0 (List.find (fun p => bool_decide (p ∉ used)) (seqZ 49152 16384)).

(** [net.Listen("tcp", ":p")] *)
Definition Listen (p : Z) (w : World) : (error + Listener) * World :=
  if (p <? 0) || (65535 <? p) then (inl (InvalidPort p), w)
  else
    let q := if p =? 0 then ephemeral (listening w) else p in
    if bool_decide (q ∈ listening w) || (q =? 0) then (inl (AddrInUse q), w)
    else (inr {| port := q |}, note (Bound q) (set_listening ({[q]} ∪ listening w) w)).

End net.

(** ** context *)
Module context.

(** [context.WithCancel(context.Background())]: the new context is known
    by its index. *)
Definition WithCancel (w : World) : nat * World :=
  (length (contexts w), set_contexts (contexts w ++ [false]) w).

Definition cancel (ctx : nat) (w : World) : World :=
  note (CancelCalled ctx) (set_contexts (<[ctx := true]> (contexts w)) w).

Definition Done (ctx : nat) (w : World) : bool :=
  bool_decide (contexts w !! ctx = Some true).

End context.

(** ** weaveworks/common/signals *)
Module signals.

Inductive Logger := StandardLogger.

Record Handler := { quit : bool }.

Definition NewHandler (log : Logger) : Handler := {| quit := false |}.

(** Modelled from the spec: [signals.Handler.Stop] is not among the
    sources.  It "requests shutdown; safe to call from another task;
    idempotent". *)
Definition Stop (h : Handler) : Handler := {| quit := true |}.

(** Modelled from the spec: [signals.Handler.Loop] is not among the
    sources.  It blocks until the stop signal: the time at which it
    returns when it is entered at [now], [None] when it never returns. *)
Definition Loop (env : Env) (h : Handler) (now : Z) : option Z :=
  if quit h then Some now else Z.max now <$> stopAt env.

End signals.

(** ** net/http: requests and responses *)
Module http.

Record Request := {
  Method : string;
  URL : string;
  Header : list (string * string);
  Body : string
}.

(** What the response writer holds when [ServeHTTP] returns. *)
Record Response := {
  Code : Z;
  RHeader : list (string * string);
  RBody : string
}.

Definition StatusOK : Z := 200.
Definition StatusNotFound : Z := 404.

Definition NotFound : Response :=
  {| Code := StatusNotFound; RHeader := []; RBody := "404 page not found" |}.

End http.

(** ** gorilla/mux: the route table *)
Module mux.

(** What a route leads to.  It does not read the route table. *)
Definition RouteHandler : Type := http.Request -> http.Response * list Event.

Record Route := {
  template : string;
  isPrefix : bool;
  target : RouteHandler
}.

(** The content of a [*mux.Router]: its routes, in registration order. *)
Definition Router : Type := list Route.

Definition NewRouter : Router := [].

(** [router.Handle(path, handler)] *)
Definition Handle (path : string) (h : RouteHandler) (r : Router) : Router :=
  r ++ [ {| template := path; isPrefix := false; target := h |} ].

(** [router.PathPrefix(tpl).Handler(handler)] *)
Definition PathPrefix_Handler (tpl : string) (h : RouteHandler) (r : Router) : Router :=
  r ++ [ {| template := tpl; isPrefix := true; target := h |} ].

Definition matches (path : string) (rt : Route) : bool :=
  if isPrefix rt then String.prefix (template rt) path
  else String.eqb (template rt) path.

(** The first registered route that matches wins. *)
Definition Match (r : Router) (req : http.Request) : option Route :=
  List.find (matches (http.URL req)) r.

(** [Router.ServeHTTP], on the table as it is when the request comes. *)
Definition ServeHTTP (r : Router) (req : http.Request) : http.Response * list Event :=
  match Match r req with
  | Some rt => target rt req
  | None => (http.NotFound, [])
  end.

End mux.

(** An [http.Handler] of this server.  The handlers of [New] hold the pointer
    to the server's router, and the service author adds routes to that router
    after [New]: a handler therefore takes the content of the router at the
    time of the request as its first argument. *)
Definition Handler : Type := mux.Router -> http.Request -> http.Response * list Event.

(** ** prometheus: histograms and the default registry *)
Module prometheus.

Record HistogramOpts := {
  Namespace : string;
  Name : string;
  Help : string;
  Buckets : list string
}.

Definition DefBuckets : list string :=
  [".005"; ".01"; ".025"; ".05"; ".1"; ".25"; ".5"; "1"; "2.5"; "5"; "10"].

Record HistogramVec := {
  fqName : string;
  help : string;
  buckets : list string;
  labelNames : list string
}.

(** [BuildFQName] with an empty subsystem. *)
Definition BuildFQName (namespace name : string) : string :=
  if String.eqb namespace "" then name else namespace +:+ "_" +:+ name.

Definition NewHistogramVec (opts : HistogramOpts) (labels : list string) : HistogramVec :=
  {| fqName := BuildFQName (Namespace opts) (Name opts);
     help := Help opts;
     buckets := Buckets opts;
     labelNames := labels |}.

(** [MustRegister] on the default registry: a name that is registered
    already makes it panic, which is [None]. *)
Definition MustRegister (c : HistogramVec) (w : World) : option World :=
  if bool_decide (fqName c ∈ DefaultRegisterer w) then None
  else Some (note (Registered (fqName c))
               (set_DefaultRegisterer ({[fqName c]} ∪ DefaultRegisterer w) w)).

(** The scrape endpoint. *)
Definition Handler : mux.RouteHandler :=
  fun _ => ({| http.Code := http.StatusOK; http.RHeader := []; http.RBody := "# metrics" |}, []).

End prometheus.

(** ** loki: the tracer and its endpoint *)
Module loki.

Definition Handler : mux.RouteHandler :=
  fun _ => ({| http.Code := http.StatusOK; http.RHeader := []; http.RBody := "# traces" |}, []).

End loki.

(** ** opentracing *)
Module opentracing.

(** The tracer [init] installs with [InitGlobalTracer] when the package is
    loaded. *)
Inductive Tracer := GlobalTracer.

End opentracing.

(** ** httpgrpc: the messages of the bridge *)
Module httpgrpc_pb.

(** The envelope of an HTTP request sent over gRPC. *)
Record HTTPRequest := {
  Method : string;
  Url : string;
  Headers : list (string * string);
  Body : string
}.

Record HTTPResponse := {
  Code : Z;
  RHeaders : list (string * string);
  RBody : string
}.

End httpgrpc_pb.

(** ** grpc: unary calls and the server *)
Module grpc.

Definition error : Type := string.

Definition Reply : Type := (httpgrpc_pb.HTTPResponse + error)%type.

Record UnaryServerInfo := { FullMethod : string }.

(** [func(ctx, req) (resp, err)].  As for [Handler], the first argument is
    the content of the server's router when the call comes; the messages
    are those of the one service this package registers. *)
Definition UnaryHandler : Type :=
  mux.Router -> httpgrpc_pb.HTTPRequest -> Reply * list Event.

(** [func(ctx, req, info, handler) (resp, err)] *)
Definition UnaryServerInterceptor : Type :=
  mux.Router -> httpgrpc_pb.HTTPRequest -> UnaryServerInfo -> UnaryHandler -> Reply * list Event.

Inductive ServerOption :=
| UnaryInterceptor (i : UnaryServerInterceptor).

Record Server := {
  unaryInt : option UnaryServerInterceptor;
  (** the registered methods, by full name, latest first *)
  m : list (string * UnaryHandler);
  (** the server has no connections any more and takes none *)
  stopped : bool
}.

Definition NewServer (opt : list ServerOption) : Server :=
  {| unaryInt := fold_left (fun _ o => match o with UnaryInterceptor i => Some i end) opt None;
     m := [];
     stopped := false |}.

Definition RegisterService (name : string) (h : UnaryHandler) (s : Server) : Server :=
  {| unaryInt := unaryInt s; m := (name, h) :: m s; stopped := stopped s |}.

Definition lookup_method (name : string) (s : Server) : option UnaryHandler :=
  snd <$> List.find (fun e => String.eqb (fst e) name) (m s).

(** One unary call as the server processes it: the registered method,
    run through the server's interceptor when it has one. *)
Definition processUnaryRPC (s : Server) (method : string) : UnaryHandler :=
  fun ctx req =>
    match lookup_method method s with
    | None => (inr ("unknown method " +:+ method), [])
    | Some handler =>
        match unaryInt s with
        | None => handler ctx req
        | Some int => int ctx req {| FullMethod := method |} handler
        end
    end.

(** The server is left without connections: by [Stop], which drops them,
    or at the end of [GracefulStop]. *)
Definition Stop (s : Server) : Server :=
  {| unaryInt := unaryInt s; m := m s; stopped := true |}.

End grpc.

(** ** go-grpc-middleware *)
Module grpc_middleware.

(** Modelled from the spec: the interceptors run in list order, the first
    one outermost, the last one around the handler of the call. *)
Definition ChainUnaryServer (interceptors : list grpc.UnaryServerInterceptor)
  : grpc.UnaryServerInterceptor :=
  fun ctx req info handler =>
    fold_right (fun current next => fun c r => current c r info next)
               handler interceptors ctx req.

End grpc_middleware.

(** ** weaveworks/common/middleware *)
Module middleware.

(** [type Interface interface { Wrap(http.Handler) http.Handler }] *)
Record Interface := { Wrap : Handler -> Handler }.

(** [type Func func(http.Handler) http.Handler] *)
Definition Func (f : Handler -> Handler) : Interface := {| Wrap := f |}.

(** Modelled from the spec: [middleware.Merge] is not among the sources.
    "Composition is strictly left-to-right wrapping, so the first entry in
    the list is the outermost wrapper": the last entry wraps the base
    handler first. *)
Definition Merge (middlesware : list Interface) : Interface :=
  Func (fun next => fold_right (fun m h => Wrap m h) next middlesware).

(** Modelled from the spec: the success of an HTTP exchange, for
    [middleware.Log], which is not among the sources.  Informational,
    successful and redirect statuses are successes. *)
Definition succeeded (code : Z) : bool := (100 <=? code) && (code <? 400).

Record Log := { LogSuccess : bool }.

(** Modelled from the spec: [middleware.Log] is not among the sources.
    "Success-path logging is gated by the success-logging flag (failures
    always logged)"; the line is written when the handler has returned. *)
Definition Log_Wrap (l : Log) (next : Handler) : Handler :=
  fun rt r =>
    let '(resp, evs) := next rt r in
    let line := LogLine (http.Method r +:+ " " +:+ http.URL r) (negb (succeeded (http.Code resp))) in
    if succeeded (http.Code resp)
    then (resp, evs ++ (if LogSuccess l then [line] else []))
    else (resp, evs ++ [line]).

Definition Log_Interface (l : Log) : Interface := {| Wrap := Log_Wrap l |}.

Record Instrument := {
  Duration : prometheus.HistogramVec;
  RouteMatcher : mux.Router -> http.Request -> option mux.Route
}.

(** The matched pattern, not the literal path. *)
Definition getRouteName (i : Instrument) (rt : mux.Router) (r : http.Request) : string :=
  match RouteMatcher i rt r with
  | Some route => mux.template route
  | None => "other"
  end.

(** Modelled from the spec: [middleware.Instrument] is not among the
    sources.  One sample goes into the histogram under (method, matched
    route template, status, streaming flag) when the handler returns. *)
Definition Instrument_Wrap (i : Instrument) (next : Handler) : Handler :=
  fun rt r =>
    let '(resp, evs) := next rt r in
    (resp, evs ++ [Observe (prometheus.fqName (Duration i)) (http.Method r)
                           (getRouteName i rt r) (HTTPStatus (http.Code resp)) false]).

Definition Instrument_Interface (i : Instrument) : Interface := {| Wrap := Instrument_Wrap i |}.

(** Modelled from the spec: [middleware.ServerLoggingInterceptor] is not
    among the sources.  A failed call is always logged, a successful one
    when the flag is set. *)
Definition ServerLoggingInterceptor (logSuccess : bool) : grpc.UnaryServerInterceptor :=
  fun ctx req info handler =>
    let '(resp, evs) := handler ctx req in
    match resp with
    | inr _ => (resp, evs ++ [LogLine (grpc.FullMethod info) true])
    | inl _ => (resp, evs ++ (if logSuccess then [LogLine (grpc.FullMethod info) false] else []))
    end.

(** Modelled from the spec: [middleware.ServerInstrumentInterceptor] is
    not among the sources.  One sample per call, into the histogram it was
    given, when the handler returns. *)
Definition ServerInstrumentInterceptor (hist : prometheus.HistogramVec)
  : grpc.UnaryServerInterceptor :=
  fun ctx req info handler =>
    let '(resp, evs) := handler ctx req in
    (resp, evs ++ [Observe (prometheus.fqName hist) "gRPC" (grpc.FullMethod info)
                           (match resp with inl _ => RPCSuccess | inr _ => RPCError end)
                           false]).

End middleware.

(** ** opentracing-contrib/go-stdlib/nethttp *)
Module nethttp.

(** Modelled from the spec: a span is extracted or created before the
    handler runs and finished when the handler completes. *)
Definition Middleware (tr : opentracing.Tracer) (h : Handler) : Handler :=
  fun rt r =>
    let '(resp, evs) := h rt r in
    (resp, SpanStart ("HTTP " +:+ http.Method r) :: evs ++ [SpanFinish ("HTTP " +:+ http.Method r)]).

End nethttp.

(** ** grpc-opentracing/otgrpc *)
Module otgrpc.

(** Modelled from the spec: the span of the call is opened before the
    handler runs and finished when it completes. *)
Definition OpenTracingServerInterceptor (tr : opentracing.Tracer)
  : grpc.UnaryServerInterceptor :=
  fun ctx req info handler =>
    let '(resp, evs) := handler ctx req in
    (resp, SpanStart (grpc.FullMethod info) :: evs ++ [SpanFinish (grpc.FullMethod info)]).

End otgrpc.

(** ** weaveworks/common/httpgrpc: the HTTP-over-gRPC bridge *)
Module httpgrpc.

Record Server := { handler : Handler }.

Definition NewServer (h : Handler) : Server := {| handler := h |}.

Definition toRequest (r : httpgrpc_pb.HTTPRequest) : http.Request :=
  {| http.Method := httpgrpc_pb.Method r;
     http.URL := httpgrpc_pb.Url r;
     http.Header := httpgrpc_pb.Headers r;
     http.Body := httpgrpc_pb.Body r |}.

Definition fromResponse (resp : http.Response) : httpgrpc_pb.HTTPResponse :=
  {| httpgrpc_pb.Code := http.Code resp;
     httpgrpc_pb.RHeaders := http.RHeader resp;
     httpgrpc_pb.RBody := http.RBody resp |}.

(** Modelled from the spec: [httpgrpc.Server.Handle] is not among the
    sources.  It "reconstructs an in-process HTTP request object" from the
    envelope, dispatches it to the handler it was made with, "captures the
    resulting status/headers/body, and serializes them back as an RPC
    response". *)
Definition Handle (s : Server) : grpc.UnaryHandler :=
  fun rt r =>
    let '(resp, evs) := handler s rt (toRequest r) in
    (inl (fromResponse resp), evs).

Definition HandleMethod : string := "/httpgrpc.HTTP/Handle".

(** [RegisterHTTPServer(s, srv)] *)
Definition RegisterHTTPServer (s : grpc.Server) (srv : Server) : grpc.Server :=
  grpc.RegisterService HandleMethod (Handle srv) s.

End httpgrpc.

(** ** flag *)
Module flag.

(** The value of a flag, parsed. *)
Inductive Value :=
| BoolValue (b : bool)
| IntValue (n : Z)
| DurationValue (d : Z).

(** A defined flag: its usage line, its default and the variable it is
    bound to. *)
Record Flag (P : Type) := {
  Usage : string;
  DefValue : Value;
  Target : P
}.

Arguments Usage {P} _.
Arguments DefValue {P} _.
Arguments Target {P} _.

(** [f.Var(value, name, usage)]: the flag is added to the formal flags of
    the set; a name that is defined already makes it panic ("flag
    redefined"), which is [None]. *)
Definition Var {P : Type} (p : P) (name : string) (value : Value) (usage : string)
    (f : gmap string (Flag P)) : option (gmap string (Flag P)) :=
  match f !! name with
  | Some _ => None
  | None => Some (<[name := {| Usage := usage; DefValue := value; Target := p |}]> f)
  end.

Inductive error :=
| NoSuchFlag (name : string)
| InvalidValue (name : string).

End flag.

(** ** package server *)
Module server.

Definition Duration : Type := Z.
Definition Second : Duration := 1000000000.

(** Config for a Server *)
Record Config := {
  MetricsNamespace : string;
  LogSuccess : bool;
  HTTPListenPort : Z;
  GRPCListenPort : Z;

  ServerGracefulShutdownTimeout : Duration;
  HTTPServerReadTimeout : Duration;
  HTTPServerWriteTimeout : Duration;
  HTTPServerIdleTimeout : Duration;

  GRPCMiddleware : list grpc.UnaryServerInterceptor;
  HTTPMiddleware : list middleware.Interface
}.

(** [RegisterFlags]: the values the flags have when none is given on the
    command line. *)
Definition RegisterFlags (cfg : Config) : Config :=
  {| MetricsNamespace := MetricsNamespace cfg;
     LogSuccess := false;
     HTTPListenPort := 80;
     GRPCListenPort := 9095;
     ServerGracefulShutdownTimeout := 5 * Second;
     HTTPServerReadTimeout := 5 * Second;
     HTTPServerWriteTimeout := 5 * Second;
     HTTPServerIdleTimeout := 120 * Second;
     GRPCMiddleware := GRPCMiddleware cfg;
     HTTPMiddleware := HTTPMiddleware cfg |}.

(** [http.Server] *)
Record HTTPServer := {
  ReadTimeout : Duration;
  WriteTimeout : Duration;
  IdleTimeout : Duration;
  Handler : Handler
}.

(** [http.DefaultServeMux], where pprof registers itself. *)
Definition DefaultServeMux : mux.RouteHandler :=
  fun _ => ({| http.Code := http.StatusOK; http.RHeader := []; http.RBody := "# pprof" |}, []).

(** Server wraps a HTTP and gRPC server.  [HTTP] is the content of the
    router the Go field points to. *)
Record Server := {
  cfg : Config;
  handler : signals.Handler;
  httpListener : Listener;
  grpcListener : Listener;
  httpServer : HTTPServer;

  HTTP : mux.Router;
  GRPC : grpc.Server
}.

Definition set_handler (h : signals.Handler) (s : Server) : Server :=
  {| cfg := cfg s; handler := h; httpListener := httpListener s;
     grpcListener := grpcListener s; httpServer := httpServer s;
     HTTP := HTTP s; GRPC := GRPC s |}.

Definition set_HTTP (r : mux.Router) (s : Server) : Server :=
  {| cfg := cfg s; handler := handler s; httpListener := httpListener s;
     grpcListener := grpcListener s; httpServer := httpServer s;
     HTTP := r; GRPC := GRPC s |}.

Definition set_GRPC (g : grpc.Server) (s : Server) : Server :=
  {| cfg := cfg s; handler := handler s; httpListener := httpListener s;
     grpcListener := grpcListener s; httpServer := httpServer s;
     HTTP := HTTP s; GRPC := g |}.

(** What [New] gives back: [(server, nil)], [(nil, err)], or a panic. *)
Inductive outcome :=
| Ok (s : Server)
| Err (e : net.error)
| Panic (msg : string).

(** The histogram of [New]. *)
Definition requestDuration (cfg : Config) : prometheus.HistogramVec :=
  prometheus.NewHistogramVec
    {| prometheus.Namespace := MetricsNamespace cfg;
       prometheus.Name := "request_duration_seconds";
       prometheus.Help := "Time (in seconds) spent serving HTTP requests.";
       prometheus.Buckets := prometheus.DefBuckets |}
    ["method"; "route"; "status_code"; "ws"].

(** New makes a new Server *)
Definition New (cfg : Config) (w : World) : outcome * World :=
  (* Setup listeners first, so we can fail early if the port is in use. *)
  match net.Listen (HTTPListenPort cfg) w with
  | (inl err, w) => (Err err, w)
  | (inr httpListener, w) =>
  match net.Listen (GRPCListenPort cfg) w with
  | (inl err, w) => (Err err, w)
  | (inr grpcListener, w) =>
  (* Prometheus histograms for requests. *)
  let requestDuration := requestDuration cfg in
  match prometheus.MustRegister requestDuration w with
  | None => (Panic "duplicate metrics collector registration attempted", w)
  | Some w =>
  (* Setup gRPC server *)
  let grpcMiddleware :=
    [ middleware.ServerLoggingInterceptor (LogSuccess cfg);
      middleware.ServerInstrumentInterceptor requestDuration;
      otgrpc.OpenTracingServerInterceptor opentracing.GlobalTracer ] in
  let grpcMiddleware := grpcMiddleware ++ GRPCMiddleware cfg in
  let grpcServer :=
    grpc.NewServer
      [ grpc.UnaryInterceptor (grpc_middleware.ChainUnaryServer grpcMiddleware) ] in
  (* Setup HTTP server *)
  let router := mux.NewRouter in
  let router := mux.Handle "/metrics" prometheus.Handler router in
  let router := mux.Handle "/traces" loki.Handler router in
  let router := mux.PathPrefix_Handler "/debug/pprof" DefaultServeMux router in
  let httpMiddleware :=
    [ middleware.Log_Interface {| middleware.LogSuccess := LogSuccess cfg |};
      middleware.Instrument_Interface
        {| middleware.Duration := requestDuration;
           middleware.RouteMatcher := mux.Match |};
      middleware.Func (fun handler =>
        nethttp.Middleware opentracing.GlobalTracer handler) ] in
  let httpMiddleware := httpMiddleware ++ HTTPMiddleware cfg in
  let httpServer :=
    {| ReadTimeout := HTTPServerReadTimeout cfg;
       WriteTimeout := HTTPServerWriteTimeout cfg;
       IdleTimeout := HTTPServerIdleTimeout cfg;
       Handler := middleware.Wrap (middleware.Merge httpMiddleware) mux.ServeHTTP |} in
  (Ok {| cfg := cfg;
         httpListener := httpListener;
         grpcListener := grpcListener;
         httpServer := httpServer;
         handler := signals.NewHandler signals.StandardLogger;
         HTTP := router;
         GRPC := grpcServer |}, w)
  end end end.

(** *** What the calls of [Run] do to the server and the world *)

Definition isTimer (g : Goroutine) : bool :=
  match g with ShutdownTimer _ _ => true | _ => false end.

Definition due (t : Z) (g : Goroutine) : bool :=
  match g with ShutdownTimer wake _ => wake <=? t | _ => false end.

(** When a goroutine that is asleep will call [s.GRPC.Stop()]. *)
Definition nextStop (w : World) : option Z :=
  fold_right (fun g acc =>
    match g with ShutdownTimer wake _ => earliest (Some wake) acc | _ => acc end)
    None (goroutines w).

(** When a goroutine that is asleep will cancel [ctx]. *)
Definition nextCancel (ctx : nat) (w : World) : option Z :=
  fold_right (fun g acc =>
    match g with
    | ShutdownTimer wake c => if bool_decide (c = ctx) then earliest (Some wake) acc else acc
    | _ => acc
    end)
    None (goroutines w).

(** The end of the function [Run] starts with [go], after its sleep:
    [cancel()] and then [s.GRPC.Stop()], which closes the listener of the
    RPC server and drops its connections. *)
Definition forceStop (ctx : nat) (s : Server) (w : World) : Server * World :=
  let w := context.cancel ctx w in
  let w := note StopCalled (close (grpcListener s) w) in
  (set_GRPC (grpc.Stop (GRPC s)) s, w).

(** A goroutine wakes up, runs to its end and is gone. *)
Definition fire (g : Goroutine) (sw : Server * World) : Server * World :=
  match g with
  | ShutdownTimer wake ctx =>
      let '(s, w) := sw in
      let w := set_clock (Z.max (clock w) wake) w in
      let w := set_goroutines
                 (List.filter (fun g' => negb (bool_decide (g' = g))) (goroutines w)) w in
      forceStop ctx s w
  | _ => sw
  end.

(** Time passes until [t]: the goroutines due by then run. *)
Definition advance (t : Z) (s : Server) (w : World) : Server * World :=
  let '(s, w) :=
    fold_left (fun sw g => fire g sw) (List.filter (due t) (goroutines w)) (s, w) in
  (s, set_clock (Z.max (clock w) t) w).

(** [s.handler.Loop()]; [None]: it never returns. *)
Definition handler_Loop (env : Env) (s : Server) (w : World) : option (Server * World) :=
  t ← signals.Loop env (handler s) (clock w);
  let '(s, w) := advance t s w in
  Some (s, note LoopReturned w).

(** [s.GRPC.GracefulStop()]: nothing to do on a stopped server; otherwise
    the listener is closed and the call waits until the calls in flight
    are over or until [Stop] interrupts it. *)
Definition GRPC_GracefulStop (env : Env) (s : Server) (w : World) : option (Server * World) :=
  let w := note GracefulStopCalled w in
  if grpc.stopped (GRPC s) then Some (s, note GracefulStopReturned w)
  else
    let w := close (grpcListener s) w in
    t ← earliest (rpcDrained env (clock w)) (nextStop w);
    let '(s, w) := advance (Z.max (clock w) t) s w in
    Some (set_GRPC (grpc.Stop (GRPC s)) s, note GracefulStopReturned w).

(** [s.httpServer.Shutdown(ctx)]: the listener is closed and the call
    waits until the connections are idle or until [ctx] is done. *)
Definition httpServer_Shutdown (env : Env) (ctx : nat) (s : Server) (w : World)
  : option (Server * World) :=
  let w := note ShutdownCalled w in
  let w := close (httpListener s) w in
  t ← earliest (httpDrained env (clock w))
               (if context.Done ctx w then Some (clock w) else nextCancel ctx w);
  let '(s, w) := advance (Z.max (clock w) t) s w in
  Some (s, note ShutdownReturned w).

(** [time.Sleep(d)] returns at once when [d] is not positive. *)
Definition wakeAfter (d : Duration) (w : World) : Z := clock w + Z.max 0 d.

(** [httpgrpc.RegisterHTTPServer(s.GRPC, httpgrpc.NewServer(s.HTTP))]: the
    bridge is made with the router, [s.HTTP], and not with the handler of
    the HTTP server. *)
Definition registerBridge (s : Server) : Server :=
  set_GRPC (httpgrpc.RegisterHTTPServer (GRPC s) (httpgrpc.NewServer mux.ServeHTTP)) s.

(** The beginning of [Run], up to the call of [Loop]: the two [Serve]
    goroutines are started and the bridge is registered.  It gives the
    context of the HTTP shutdown, and the server and the world in which
    [Run] then waits for the stop signal. *)
Definition Run_start (s : Server) (w : World) : nat * Server * World :=
  (* go s.httpServer.Serve(s.httpListener) *)
  let w := go (HTTPServe (httpListener s)) w in
  let '(httpServerCtx, w) := context.WithCancel w in
  (* defer s.httpServer.Shutdown(httpServerCtx) *)

  (* Setup gRPC server *)
  (* for HTTP over gRPC, ensure we don't double-count the middleware *)
  let s := registerBridge s in
  let w := note BridgeRegistered w in
  (* go s.GRPC.Serve(s.grpcListener) *)
  let w := go (GRPCServe (grpcListener s)) w in
  (* defer s.GRPC.GracefulStop() *)
  (httpServerCtx, s, w).

(** The rest of [Run], from the call of [Loop] on.  [None]: it blocks for
    ever.  The two deferred calls run when the body is over, the one
    deferred last first. *)
Definition Run_wait (env : Env) (httpServerCtx : nat) (s : Server) (w : World)
  : option (Server * World) :=
  (* Wait for a signal *)
  '(s, w) ← handler_Loop env s w;

  (* go func() { time.Sleep(...); cancel(); s.GRPC.Stop() }() *)
  let w := go (ShutdownTimer (wakeAfter (ServerGracefulShutdownTimeout (cfg s)) w)
                             httpServerCtx) w in

  (* the deferred calls *)
  '(s, w) ← GRPC_GracefulStop env s w;
  '(s, w) ← httpServer_Shutdown env httpServerCtx s w;
  Some (s, note RunReturned w).

(** Run the server; blocks until SIGTERM is received.  [None]: it blocks
    for ever. *)
Definition Run (env : Env) (s : Server) (w : World) : option (Server * World) :=
  let '(httpServerCtx, s, w) := Run_start s w in
  Run_wait env httpServerCtx s w.

(** Stop the server, gracefully.  Unblocks Run(). *)
Definition Stop (s : Server) : Server :=
  set_handler (signals.Stop (handler s)) s.

(** *** The server at work *)

(** [s.HTTP.Handle(path, h)], by the author of the service. *)
Definition HTTP_Handle (path : string) (h : mux.RouteHandler) (s : Server) : Server :=
  set_HTTP (mux.Handle path h (HTTP s)) s.

(** A request that comes in on the HTTP listener. *)
Definition ServeHTTP (s : Server) (r : http.Request) : http.Response * list Event :=
  Handler (httpServer s) (HTTP s) r.

(** A unary call that comes in on the gRPC listener. *)
Definition ServeGRPC (s : Server) (method : string) (r : httpgrpc_pb.HTTPRequest)
  : grpc.Reply * list Event :=
  grpc.processUnaryRPC (GRPC s) method (HTTP s) r.


(** *** The flags *)

(** The variables of a Config that flags are bound to: [&cfg.LogSuccess]
    and so on. *)
Inductive BoolRef := LogSuccessRef.

Inductive IntRef := HTTPListenPortRef | GRPCListenPortRef.

Inductive DurationRef :=
| ServerGracefulShutdownTimeoutRef
| HTTPServerReadTimeoutRef
| HTTPServerWriteTimeoutRef
| HTTPServerIdleTimeoutRef.

Inductive Ref :=
| OfBool (p : BoolRef)
| OfInt (p : IntRef)
| OfDuration (p : DurationRef).

(** [*p = v] *)
Definition storeBool (p : BoolRef) (v : bool) (cfg : Config) : Config :=
  match p with
  | LogSuccessRef =>
      {| MetricsNamespace := MetricsNamespace cfg;
         LogSuccess := v;
         HTTPListenPort := HTTPListenPort cfg;
         GRPCListenPort := GRPCListenPort cfg;
         ServerGracefulShutdownTimeout := ServerGracefulShutdownTimeout cfg;
         HTTPServerReadTimeout := HTTPServerReadTimeout cfg;
         HTTPServerWriteTimeout := HTTPServerWriteTimeout cfg;
         HTTPServerIdleTimeout := HTTPServerIdleTimeout cfg;
         GRPCMiddleware := GRPCMiddleware cfg;
         HTTPMiddleware := HTTPMiddleware cfg |}
  end.

Definition storeInt (p : IntRef) (v : Z) (cfg : Config) : Config :=
  {| MetricsNamespace := MetricsNamespace cfg;
     LogSuccess := LogSuccess cfg;
     HTTPListenPort := match p with HTTPListenPortRef => v | _ => HTTPListenPort cfg end;
     GRPCListenPort := match p with GRPCListenPortRef => v | _ => GRPCListenPort cfg end;
     ServerGracefulShutdownTimeout := ServerGracefulShutdownTimeout cfg;
     HTTPServerReadTimeout := HTTPServerReadTimeout cfg;
     HTTPServerWriteTimeout := HTTPServerWriteTimeout cfg;
     HTTPServerIdleTimeout := HTTPServerIdleTimeout cfg;
     GRPCMiddleware := GRPCMiddleware cfg;
     HTTPMiddleware := HTTPMiddleware cfg |}.

Definition storeDuration (p : DurationRef) (v : Duration) (cfg : Config) : Config :=
  {| MetricsNamespace := MetricsNamespace cfg;
     LogSuccess := LogSuccess cfg;
     HTTPListenPort := HTTPListenPort cfg;
     GRPCListenPort := GRPCListenPort cfg;
     ServerGracefulShutdownTimeout :=
       match p with
       | ServerGracefulShutdownTimeoutRef => v
       | _ => ServerGracefulShutdownTimeout cfg
       end;
     HTTPServerReadTimeout :=
       match p with HTTPServerReadTimeoutRef => v | _ => HTTPServerReadTimeout cfg end;
     HTTPServerWriteTimeout :=
       match p with HTTPServerWriteTimeoutRef => v | _ => HTTPServerWriteTimeout cfg end;
     HTTPServerIdleTimeout :=
       match p with HTTPServerIdleTimeoutRef => v | _ => HTTPServerIdleTimeout cfg end;
     GRPCMiddleware := GRPCMiddleware cfg;
     HTTPMiddleware := HTTPMiddleware cfg |}.

(** [f.BoolVar(p, name, value, usage)]: the variable takes the default and
    the flag is defined. *)
Definition BoolVar (p : BoolRef) (name : string) (value : bool) (usage : string)
    (st : Config * gmap string (flag.Flag Ref)) : option (Config * gmap string (flag.Flag Ref)) :=
  f ← flag.Var (OfBool p) name (flag.BoolValue value) usage (snd st);
  Some (storeBool p value (fst st), f).

(** [f.IntVar(p, name, value, usage)] *)
Definition IntVar (p : IntRef) (name : string) (value : Z) (usage : string)
    (st : Config * gmap string (flag.Flag Ref)) : option (Config * gmap string (flag.Flag Ref)) :=
  f ← flag.Var (OfInt p) name (flag.IntValue value) usage (snd st);
  Some (storeInt p value (fst st), f).

(** [f.DurationVar(p, name, value, usage)] *)
Definition DurationVar (p : DurationRef) (name : string) (value : Duration) (usage : string)
    (st : Config * gmap string (flag.Flag Ref)) : option (Config * gmap string (flag.Flag Ref)) :=
  f ← flag.Var (OfDuration p) name (flag.DurationValue value) usage (snd st);
  Some (storeDuration p value (fst st), f).

(** RegisterFlags adds the flags required to config this to the given
    FlagSet.  [None]: one of the calls panics. *)
Definition RegisterFlagsIn (cfg : Config) (f : gmap string (flag.Flag Ref))
  : option (Config * gmap string (flag.Flag Ref)) :=
  st ← BoolVar LogSuccessRef "server.log-success" false "Log successful requests" (cfg, f);
  st ← IntVar HTTPListenPortRef "server.http-listen-port" 80 "HTTP server listen port." st;
  st ← IntVar GRPCListenPortRef "server.grpc-listen-port" 9095 "gRPC server listen port." st;
  st ← DurationVar ServerGracefulShutdownTimeoutRef "server.graceful-shutdown-timeout"
         (5 * Second) "Timeout for graceful shutdowns" st;
  st ← DurationVar HTTPServerReadTimeoutRef "server.http-read-timeout"
         (5 * Second) "Read timeout for HTTP server" st;
  st ← DurationVar HTTPServerWriteTimeoutRef "server.http-write-timeout"
         (5 * Second) "Write timeout for HTTP server" st;
  DurationVar HTTPServerIdleTimeoutRef "server.http-idle-timeout"
    (120 * Second) "Idle timeout for HTTP server" st.


(** The names [RegisterFlags] defines. *)
Definition flagNames : list string :=
  [ "server.log-success"; "server.http-listen-port"; "server.grpc-listen-port";
    "server.graceful-shutdown-timeout"; "server.http-read-timeout";
    "server.http-write-timeout"; "server.http-idle-timeout" ].

End server.

(** A transformer that makes its two halves observable: [before], then the
    wrapped handler, then [after]. *)
Definition around (before after : list Event) : middleware.Interface :=
  middleware.Func (fun next rt r =>
    let '(resp, evs) := next rt r in (resp, before ++ evs ++ after)).


(** ** Properties of servers and worlds *)

(** The goroutines that are asleep until the end of a shutdown timeout. *)
Definition timers (w : World) : list Goroutine :=
  List.filter server.isTimer (goroutines w).

(** The server has not been stopped yet, and no shutdown timer of an earlier
    run is asleep. *)
Definition ready (s : server.Server) (w : World) : Prop :=
  grpc.stopped (server.GRPC s) = false ∧ timers w = [].

(** The bridge service is registered on an RPC server. *)
Definition bridgeRegistered (g : grpc.Server) : Prop :=
  is_Some (grpc.lookup_method httpgrpc.HandleMethod g).

(** The server as it is while [Run] waits for the stop signal, for a [Run]
    that is called on [s] in the world [w]: the server the two [Serve]
    goroutines work for. *)
Definition running (s : server.Server) (w : World) : server.Server :=
  snd (fst (server.Run_start s w)).

(** The three entries every chain starts with: logging, latency
    instrumentation, trace-context propagation. *)
Definition builtinHTTP (cfg : server.Config) : list middleware.Interface :=
  [ middleware.Log_Interface {| middleware.LogSuccess := server.LogSuccess cfg |};
    middleware.Instrument_Interface
      {| middleware.Duration := server.requestDuration cfg;
         middleware.RouteMatcher := mux.Match |};
    middleware.Func (nethttp.Middleware opentracing.GlobalTracer) ].

Definition builtinGRPC (cfg : server.Config) : list grpc.UnaryServerInterceptor :=
  [ middleware.ServerLoggingInterceptor (server.LogSuccess cfg);
    middleware.ServerInstrumentInterceptor (server.requestDuration cfg);
    otgrpc.OpenTracingServerInterceptor opentracing.GlobalTracer ].

(** ** The moments of a run *)

(** The server once its RPC server has lost its connections. *)
Definition stopServer (s : server.Server) : server.Server :=
  server.set_GRPC (grpc.Stop (server.GRPC s)) s.

(** When the shutdown timer wakes up, for a run whose [Loop] returns at [tS]. *)
Definition deadline (s : server.Server) (tS : Z) : Z :=
  tS + Z.max 0 (server.ServerGracefulShutdownTimeout (server.cfg s)).

(** When a blocking call that is entered at [now] returns: when what it waits
    for is there, or at [limit] when that comes first. *)
Definition waitUntil (now : Z) (there : option Z) (limit : Z) : Z :=
  Z.max now (match there with Some d => Z.min d limit | None => limit end).

(** When [GracefulStop] returns. *)
Definition rpcEnd (env : Env) (s : server.Server) (tS : Z) : Z :=
  waitUntil tS (rpcDrained env tS) (deadline s tS).

(** When [Shutdown] returns. *)
Definition httpEnd (env : Env) (s : server.Server) (tS : Z) : Z :=
  let tG := rpcEnd env s tS in
  waitUntil tG (httpDrained env tG) (if deadline s tS <=? tG then tG else deadline s tS).

(** When the two graceful stops of [Run] are over if nothing forces them;
    [None]: never. *)
Definition gracefulEnd (env : Env) (tS : Z) : option Z :=
  tG ← Z.max tS <$> rpcDrained env tS;
  Z.max tG <$> httpDrained env tG.

(** What the shutdown timer does when it wakes up. *)
Definition forced (tF : Z) (ctx : nat) : list (Z * Action) :=
  [(tF, CancelCalled ctx); (tF, StopCalled)].

(** What a run adds to the journal when its [Loop] returns at [tS]. *)
Definition runJournal (env : Env) (s : server.Server) (w : World) (tS : Z)
  : list (Z * Action) :=
  let ctx := length (contexts w) in
  let tF := deadline s tS in
  let tG := rpcEnd env s tS in
  let tH := httpEnd env s tS in
  [ (clock w, Go (HTTPServe (server.httpListener s)));
    (clock w, BridgeRegistered);
    (clock w, Go (GRPCServe (server.grpcListener s)));
    (tS, LoopReturned);
    (tS, Go (ShutdownTimer tF ctx));
    (tS, GracefulStopCalled) ]
  ++ (if tF <=? tG then forced tF ctx else [])
  ++ [ (tG, GracefulStopReturned); (tG, ShutdownCalled) ]
  ++ (if (tG <? tF) && (tF <=? tH) then forced tF ctx else [])
  ++ [ (tH, ShutdownReturned); (tH, RunReturned) ].

(** How often an action is in a journal. *)
Definition occurrences (a : Action) (j : list (Z * Action)) : nat :=
  length (List.filter (fun e => bool_decide (snd e = a)) j).

(** C8 as the specification words it: at the stop signal the graceful stop
    of the HTTP server is initiated together with the one of the RPC
    server. *)
Definition shutdowns_start_together (env : Env) (s : server.Server) (w : World) : Prop :=
  ∀ s' w',
    server.Run env s w = Some (s', w') →
    ∃ t, In (t, GracefulStopCalled) (journal w') ∧ In (t, ShutdownCalled) (journal w').

(** ** User-supplied transformers and routes that keep out of the way *)





(** C2 as the specification words it: when the second bind fails, the first
    listener is closed before the error is returned. *)
Definition closes_first_listener (cfg : server.Config) (w : World) : Prop :=
  ∀ l w1 e w2,
    net.Listen (server.HTTPListenPort cfg) w = (inr l, w1) →
    net.Listen (server.GRPCListenPort cfg) w1 = (inl e, w2) →
    ∃ w', server.New cfg w = (server.Err e, w') ∧ port l ∉ listening w'.

(** C3 as the specification words it: the bridge is registered when [New]
    returns. *)
Definition fully_formed_with_bridge (cfg : server.Config) (w : World) : Prop :=
  ∀ s w',
    server.New cfg w = (server.Ok s, w') →
    server.ReadTimeout (server.httpServer s) = server.HTTPServerReadTimeout cfg
    ∧ server.WriteTimeout (server.httpServer s) = server.HTTPServerWriteTimeout cfg
    ∧ server.IdleTimeout (server.httpServer s) = server.HTTPServerIdleTimeout cfg
    ∧ bridgeRegistered (server.GRPC s)
    ∧ goroutines w' = goroutines w.

(** C9 as it is worded: whatever the two configurations, the second [New]
    panics. *)
Definition second_New_panics (cfg1 cfg2 : server.Config) (w : World) : Prop :=
  ∀ s1 w1,
    server.New cfg1 w = (server.Ok s1, w1) →
    ∃ msg w2, server.New cfg2 w1 = (server.Panic msg, w2).

(** ** Examples *)
Module example.

(** A process that has just started. *)
Definition world : World :=
  {| clock := 0; listening := ∅; DefaultRegisterer := ∅;
     goroutines := []; contexts := []; journal := [] |}.

(** The same, with the gRPC port of the default flags taken by some other
    process. *)
Definition busy : World := set_listening {[9095]} world.

(** The configuration of the default flags, in a given namespace. *)
Definition config (namespace : string) : server.Config :=
  server.RegisterFlags
    {| server.MetricsNamespace := namespace;
       server.LogSuccess := false;
       server.HTTPListenPort := 0;
       server.GRPCListenPort := 0;
       server.ServerGracefulShutdownTimeout := 0;
       server.HTTPServerReadTimeout := 0;
       server.HTTPServerWriteTimeout := 0;
       server.HTTPServerIdleTimeout := 0;
       server.GRPCMiddleware := [];
       server.HTTPMiddleware := [] |}.

(** A second configuration, on other ports and in another namespace. *)
Definition other : server.Config :=
  {| server.MetricsNamespace := "other";
     server.LogSuccess := true;
     server.HTTPListenPort := 8080;
     server.GRPCListenPort := 9096;
     server.ServerGracefulShutdownTimeout := 2 * server.Second;
     server.HTTPServerReadTimeout := server.Second;
     server.HTTPServerWriteTimeout := server.Second;
     server.HTTPServerIdleTimeout := server.Second;
     server.GRPCMiddleware := [];
     server.HTTPMiddleware := [] |}.

(** The stop signal comes at 7; from then on the RPC server needs until 10
   and the HTTP server two more. *)
Definition calm : Env :=
  {| stopAt := Some 7;
     rpcDrained := fun _ => Some 10;
     httpDrained := fun t => Some (t + 2) |}.

(** The stop signal comes at 7 and a call on the RPC server never returns. *)
Definition stuck : Env :=
  {| stopAt := Some 7;
     rpcDrained := fun _ => None;
     httpDrained := fun t => Some t |}.

(** No stop signal ever comes. *)
Definition quiet : Env :=
  {| stopAt := None;
     rpcDrained := fun t => Some t;
     httpDrained := fun t => Some t |}.

(** The server of [New] on the second configuration. *)
Definition server : server.Server :=
  match server.New other world with
  | (server.Ok s, _) => s
  | _ => {| server.cfg := other;
            server.handler := signals.NewHandler signals.StandardLogger;
            server.httpListener := {| port := 0 |};
            server.grpcListener := {| port := 0 |};
            server.httpServer :=
              {| server.ReadTimeout := 0; server.WriteTimeout := 0;
                 server.IdleTimeout := 0; server.Handler := mux.ServeHTTP |};
            server.HTTP := mux.NewRouter;
            server.GRPC := grpc.NewServer [] |}
  end.

(** The world [New] leaves. *)
Definition started : World := snd (server.New other world).

(** The server of [New] on the second configuration with no time for a
    graceful shutdown. *)
Definition hasty : server.Server :=
  match server.New (server.storeDuration server.ServerGracefulShutdownTimeoutRef 0 other)
          world with
  | (server.Ok s, _) => s
  | _ => server
  end.

(** A route of the service: GET /ping answers 200 "pong". *)
Definition pong : mux.RouteHandler :=
  fun _ => ({| http.Code := http.StatusOK; http.RHeader := []; http.RBody := "pong" |}, []).





(** A user-supplied interceptor that leaves a mark and passes the call on. *)
Definition tag : grpc.UnaryServerInterceptor :=
  fun ctx req info handler =>
    let '(resp, evs) := handler ctx req in (resp, Mark "rpc" :: evs).







End example.

(** * Verification *)

(** ** Middleware chain builder *)

Lemma Merge_cons (m : middleware.Interface) (ms : list middleware.Interface) (h : Handler) :
  middleware.Wrap (middleware.Merge (m :: ms)) h
  = middleware.Wrap m (middleware.Wrap (middleware.Merge ms) h).
Proof. reflexivity. Qed.

Lemma Merge_app (ms1 ms2 : list middleware.Interface) (h : Handler) :
  middleware.Wrap (middleware.Merge (ms1 ++ ms2)) h
  = middleware.Wrap (middleware.Merge ms1) (middleware.Wrap (middleware.Merge ms2) h).
Proof.
  induction ms1 as [|m ms1 IH]; [reflexivity|].
  change ((m :: ms1) ++ ms2) with (m :: (ms1 ++ ms2)).
  rewrite !Merge_cons. now rewrite IH.
Qed.


Lemma Chain_app (ins1 ins2 : list grpc.UnaryServerInterceptor) ctx req info h :
  grpc_middleware.ChainUnaryServer (ins1 ++ ins2) ctx req info h
  = grpc_middleware.ChainUnaryServer ins1 ctx req info
      (fun c r => grpc_middleware.ChainUnaryServer ins2 c r info h).
Proof.
  unfold grpc_middleware.ChainUnaryServer.
  now rewrite fold_right_app.
Qed.

(** C4: for a list [A; B] and a base handler H, the handler the chain
    builder makes is A around B around H, and when A and B make their two
    halves observable, a request shows A-before, B-before, H, B-after,
    A-after, with the response of H: the first entry is the outermost
    wrapper. *)
Theorem Merge_call_order (A B : middleware.Interface) (H : Handler) :
  middleware.Wrap (middleware.Merge [A; B]) H = middleware.Wrap A (middleware.Wrap B H)
  ∧ ∀ (beforeA afterA beforeB afterB : list Event) rt r,
      middleware.Wrap (middleware.Merge [around beforeA afterA; around beforeB afterB]) H rt r
      = (fst (H rt r), beforeA ++ beforeB ++ snd (H rt r) ++ afterB ++ afterA).
Proof.
  split; [reflexivity|].
  intros bA aA bB aB rt r. cbn.
  destruct (H rt r) as [resp evs]; cbn.
  now rewrite <- !app_assoc.
Qed.

(** ** Bootstrap *)

Lemma Listen_fails p w e w1 :
  net.Listen p w = (inl e, w1) → w1 = w.
Proof.
  unfold net.Listen. repeat case_match; congruence.
Qed.

Lemma Listen_binds p w l w1 :
  net.Listen p w = (inr l, w1) →
  (port l ∉ listening w)
  ∧ w1 = note (Bound (port l)) (set_listening ({[port l]} ∪ listening w) w).
Proof.
  unfold net.Listen. intros H.
  repeat case_match; try congruence.
  all: injection H as <- <-; cbn.
  all: match goal with
       | Hb : _ || _ = false |- _ =>
           apply orb_false_iff in Hb as [Hb _]; apply bool_decide_eq_false in Hb
       end.
  all: now split.
Qed.

(** The server [New] returns, spelled out. *)
Lemma New_Ok cfg w s w' :
  server.New cfg w = (server.Ok s, w') →
  ∃ lh w1 lg w2,
    net.Listen (server.HTTPListenPort cfg) w = (inr lh, w1)
    ∧ net.Listen (server.GRPCListenPort cfg) w1 = (inr lg, w2)
    ∧ prometheus.MustRegister (server.requestDuration cfg) w2 = Some w'
    ∧ s = {| server.cfg := cfg;
             server.handler := signals.NewHandler signals.StandardLogger;
             server.httpListener := lh;
             server.grpcListener := lg;
             server.httpServer :=
               {| server.ReadTimeout := server.HTTPServerReadTimeout cfg;
                  server.WriteTimeout := server.HTTPServerWriteTimeout cfg;
                  server.IdleTimeout := server.HTTPServerIdleTimeout cfg;
                  server.Handler :=
                    middleware.Wrap
                      (middleware.Merge (builtinHTTP cfg ++ server.HTTPMiddleware cfg))
                      mux.ServeHTTP |};
             server.HTTP :=
               mux.PathPrefix_Handler "/debug/pprof" server.DefaultServeMux
                 (mux.Handle "/traces" loki.Handler
                    (mux.Handle "/metrics" prometheus.Handler mux.NewRouter));
             server.GRPC :=
               grpc.NewServer
                 [ grpc.UnaryInterceptor
                     (grpc_middleware.ChainUnaryServer
                        (builtinGRPC cfg ++ server.GRPCMiddleware cfg)) ] |}.
Proof.
  unfold server.New. intros H.
  destruct (net.Listen (server.HTTPListenPort cfg) w) as [[e|lh] w1] eqn:Hh; [congruence|].
  destruct (net.Listen (server.GRPCListenPort cfg) w1) as [[e|lg] w2] eqn:Hg; [congruence|].
  destruct (prometheus.MustRegister (server.requestDuration cfg) w2) as [w3|] eqn:Hr;
    [|congruence].
  injection H as <- <-.
  exists lh, w1, lg, w2. repeat split; first [assumption | reflexivity].
Qed.

Lemma MustRegister_Some c w w' :
  prometheus.MustRegister c w = Some w' →
  (prometheus.fqName c ∉ DefaultRegisterer w)
  ∧ w' = note (Registered (prometheus.fqName c))
           (set_DefaultRegisterer ({[prometheus.fqName c]} ∪ DefaultRegisterer w) w).
Proof.
  unfold prometheus.MustRegister. case_bool_decide; [congruence|].
  intros [= <-]. now split.
Qed.

(** C5: on the server [New] returns, the chain of each transport is the
    three built-in entries, logging, latency instrumentation and
    trace-context propagation in that order, followed by the transformers of
    the Configuration; so logging is outermost and the user-supplied ones
    sit between the tracing entry and the base handler. *)
Theorem New_chains cfg w s w' :
  server.New cfg w = (server.Ok s, w') →
  length (builtinHTTP cfg) = 3%nat
  ∧ length (builtinGRPC cfg) = 3%nat
  ∧ server.Handler (server.httpServer s)
    = middleware.Wrap (middleware.Merge (builtinHTTP cfg ++ server.HTTPMiddleware cfg))
        mux.ServeHTTP
  ∧ server.Handler (server.httpServer s)
    = middleware.Log_Wrap {| middleware.LogSuccess := server.LogSuccess cfg |}
        (middleware.Instrument_Wrap
           {| middleware.Duration := server.requestDuration cfg;
              middleware.RouteMatcher := mux.Match |}
           (nethttp.Middleware opentracing.GlobalTracer
              (middleware.Wrap (middleware.Merge (server.HTTPMiddleware cfg))
                 mux.ServeHTTP)))
  ∧ grpc.unaryInt (server.GRPC s)
    = Some (grpc_middleware.ChainUnaryServer (builtinGRPC cfg ++ server.GRPCMiddleware cfg))
  ∧ ∀ ctx req info h,
      grpc_middleware.ChainUnaryServer (builtinGRPC cfg ++ server.GRPCMiddleware cfg)
        ctx req info h
      = middleware.ServerLoggingInterceptor (server.LogSuccess cfg) ctx req info
          (fun c r => middleware.ServerInstrumentInterceptor (server.requestDuration cfg)
             c r info
             (fun c r => otgrpc.OpenTracingServerInterceptor opentracing.GlobalTracer
                c r info
                (fun c r => grpc_middleware.ChainUnaryServer (server.GRPCMiddleware cfg)
                   c r info h))).
Proof.
  intros H. apply New_Ok in H as (lh & w1 & lg & w2 & _ & _ & _ & ->).
  cbn [server.httpServer server.Handler server.GRPC].
  split; [reflexivity|]. split; [reflexivity|]. split; [reflexivity|].
  split; [now rewrite Merge_app|]. split; [reflexivity|].
  intros ctx req info h. now rewrite Chain_app.
Qed.

Lemma New_chains_witness :
  ∃ s w',
    server.New example.other example.world = (server.Ok s, w')
    ∧ grpc.unaryInt (server.GRPC s)
      = Some (grpc_middleware.ChainUnaryServer
                (builtinGRPC example.other ++ server.GRPCMiddleware example.other)).
Proof.
  eexists _, _. split; [vm_compute; reflexivity|].
  eapply (New_chains example.other example.world).
  vm_compute; reflexivity.
Defined.

(** C2 (corrected): when the HTTP listener is bound and the bind of the RPC
    listener fails, [New] returns the bind error and no Server, and it
    leaves the world as the first bind made it: the HTTP listener is not
    closed, its port stays bound, and nothing was started. *)
Theorem New_second_bind_fails cfg w l w1 e w2 :
  net.Listen (server.HTTPListenPort cfg) w = (inr l, w1) →
  net.Listen (server.GRPCListenPort cfg) w1 = (inl e, w2) →
  server.New cfg w = (server.Err e, w1)
  ∧ port l ∈ listening w1
  ∧ goroutines w1 = goroutines w
  ∧ DefaultRegisterer w1 = DefaultRegisterer w.
Proof.
  intros Hh Hg.
  pose proof (Listen_fails _ _ _ _ Hg) as ->.
  unfold server.New. rewrite Hh, Hg.
  apply Listen_binds in Hh as [_ ->]. cbn.
  repeat split. set_solver.
Qed.

Lemma New_second_bind_fails_witness :
  server.New (example.config "app") example.busy
  = (server.Err (net.AddrInUse 9095),
     note (Bound 80) (set_listening ({[80]} ∪ listening example.busy) example.busy)).
Proof.
  eapply (New_second_bind_fails (example.config "app") example.busy {| port := 80 |}).
  - vm_compute; reflexivity.
  - vm_compute; reflexivity.
Defined.

Lemma New_leaves_first_listener_open :
  ¬ closes_first_listener (example.config "app") example.busy.
Proof.
  intros H.
  destruct (H {| port := 80 |}
              (note (Bound 80) (set_listening ({[80]} ∪ listening example.busy) example.busy))
              (net.AddrInUse 9095)
              (note (Bound 80) (set_listening ({[80]} ∪ listening example.busy) example.busy)))
    as (w' & HNew & Hclosed).
  - vm_compute; reflexivity.
  - vm_compute; reflexivity.
  - apply Hclosed.
    assert (server.New (example.config "app") example.busy
            = (server.Err (net.AddrInUse 9095),
               note (Bound 80)
                 (set_listening ({[80]} ∪ listening example.busy) example.busy))) as E
      by (vm_compute; reflexivity).
    rewrite E in HNew. injection HNew as <-. cbn. set_solver.
Qed.

Lemma New_registers cfg w s w' :
  server.New cfg w = (server.Ok s, w') →
  prometheus.fqName (server.requestDuration cfg) ∈ DefaultRegisterer w'.
Proof.
  intros H. apply New_Ok in H as (lh & w1 & lg & w2 & _ & _ & Hr & _).
  apply MustRegister_Some in Hr as [_ ->]. cbn. set_solver.
Qed.

Lemma Listen_registry p w r w1 :
  net.Listen p w = (r, w1) → DefaultRegisterer w1 = DefaultRegisterer w.
Proof.
  destruct r as [e|l]; intros H.
  - now rewrite (Listen_fails _ _ _ _ H).
  - apply Listen_binds in H as [_ ->]. reflexivity.
Qed.

(** C9 (corrected): a second [New] panics when its two listeners can be
    bound and its Configuration has the metrics namespace of the first one:
    the histogram is registered under a name the registry has already.  When
    one of its listeners cannot be bound, as on the ports the first Server
    holds, it returns the bind error before it gets to the registration. *)
Theorem New_twice cfg1 cfg2 w s1 w1 :
  server.New cfg1 w = (server.Ok s1, w1) →
  (∀ l wa l' wb,
     server.MetricsNamespace cfg2 = server.MetricsNamespace cfg1 →
     net.Listen (server.HTTPListenPort cfg2) w1 = (inr l, wa) →
     net.Listen (server.GRPCListenPort cfg2) wa = (inr l', wb) →
     ∃ msg, server.New cfg2 w1 = (server.Panic msg, wb))
  ∧ (∀ e wa,
       net.Listen (server.HTTPListenPort cfg2) w1 = (inl e, wa) →
       server.New cfg2 w1 = (server.Err e, w1))
  ∧ (∀ l wa e wb,
       net.Listen (server.HTTPListenPort cfg2) w1 = (inr l, wa) →
       net.Listen (server.GRPCListenPort cfg2) wa = (inl e, wb) →
       server.New cfg2 w1 = (server.Err e, wa)).
Proof.
  intros H1. apply New_registers in H1.
  split; [|split].
  - intros l wa l' wb Hns Hh Hg.
    unfold server.New. rewrite Hh, Hg.
    assert (prometheus.fqName (server.requestDuration cfg2) ∈ DefaultRegisterer wb) as Hin.
    { rewrite (Listen_registry _ _ _ _ Hg), (Listen_registry _ _ _ _ Hh).
      unfold server.requestDuration in *. cbn in *. now rewrite Hns. }
    unfold prometheus.MustRegister. rewrite bool_decide_eq_true_2 by exact Hin.
    eauto.
  - intros e wa Hh. unfold server.New.
    pose proof (Listen_fails _ _ _ _ Hh) as ->. now rewrite Hh.
  - intros l wa e wb Hh Hg. unfold server.New.
    pose proof (Listen_fails _ _ _ _ Hg) as ->. now rewrite Hh, Hg.
Qed.

Lemma New_twice_witness :
  ∃ s1 w1,
    server.New (example.config "app") example.world = (server.Ok s1, w1)
    ∧ server.New (example.config "app") w1 = (server.Err (net.AddrInUse 80), w1).
Proof.
  eexists _, _. split; [vm_compute; reflexivity|].
  match goal with
  | |- server.New _ ?w1 = _ =>
      refine (proj1 (proj2 (New_twice (example.config "app") (example.config "app")
                              example.world _ w1 _)) _ w1 _)
  end; vm_compute; reflexivity.
Defined.

Lemma second_New_need_not_panic :
  ¬ second_New_panics (example.config "app") (example.config "app") example.world
  ∧ ¬ second_New_panics (example.config "app") example.other example.world.
Proof.
  split; intros H.
  - edestruct H as (msg & w2 & E2); [vm_compute; reflexivity|].
    vm_compute in E2. discriminate E2.
  - edestruct H as (msg & w2 & E2); [vm_compute; reflexivity|].
    vm_compute in E2. discriminate E2.
Qed.

(** ** Life cycle: goroutines that are asleep *)

Lemma filter_swap {A} (P Q : A → bool) (l : list A) :
  List.filter P (List.filter Q l) = List.filter Q (List.filter P l).
Proof.
  induction l as [|x l IH]; [reflexivity|].
  cbn. destruct (Q x) eqn:HQ, (P x) eqn:HP; cbn; rewrite ?HQ, ?HP, IH; reflexivity.
Qed.

Lemma filter_keeps_timers (P : Goroutine → bool) (gs : list Goroutine) :
  (∀ g, server.isTimer g = true → P g = true) →
  List.filter server.isTimer (List.filter P gs) = List.filter server.isTimer gs.
Proof.
  intros HP. rewrite filter_swap.
  induction gs as [|g gs IH]; [reflexivity|].
  cbn. destruct (server.isTimer g) eqn:Hg; cbn; [rewrite (HP g Hg), IH|]; auto.
Qed.

Lemma timers_close l w : timers (close l w) = timers w.
Proof.
  unfold timers, close. cbn.
  apply filter_keeps_timers.
  intros [l0|l0|wk c]; cbn; try discriminate. reflexivity.
Qed.

Lemma timers_go g w : timers (go g w) = timers w ++ List.filter server.isTimer [g].
Proof. unfold timers, go. cbn. apply List.filter_app. Qed.

Lemma filter_due t (gs : list Goroutine) :
  List.filter (server.due t) gs = List.filter (server.due t) (List.filter server.isTimer gs).
Proof.
  induction gs as [|g gs IH]; [reflexivity|].
  destruct g; cbn; rewrite IH; reflexivity.
Qed.

Lemma nextStop_none w : timers w = [] → server.nextStop w = None.
Proof.
  unfold timers, server.nextStop. generalize (goroutines w) as gs.
  induction gs as [|g gs IH]; [reflexivity|].
  destruct g; cbn; auto; discriminate.
Qed.

Lemma nextStop_one w wk c :
  timers w = [ShutdownTimer wk c] → server.nextStop w = Some wk.
Proof.
  pose proof (λ gs, nextStop_none (set_goroutines gs w)) as Hnone.
  unfold timers, server.nextStop in *. cbn in Hnone.
  generalize (goroutines w) as gs.
  induction gs as [|g gs IH]; [discriminate|].
  destruct g; cbn; auto.
  intros [= -> -> Hgs]. now rewrite (Hnone _ Hgs).
Qed.

Lemma nextCancel_none w c : timers w = [] → server.nextCancel c w = None.
Proof.
  unfold timers, server.nextCancel. generalize (goroutines w) as gs.
  induction gs as [|g gs IH]; [reflexivity|].
  destruct g; cbn; auto; discriminate.
Qed.

Lemma nextCancel_one w wk c :
  timers w = [ShutdownTimer wk c] → server.nextCancel c w = Some wk.
Proof.
  pose proof (λ gs, nextCancel_none (set_goroutines gs w) c) as Hnone.
  unfold timers, server.nextCancel in *. cbn in Hnone.
  generalize (goroutines w) as gs.
  induction gs as [|g gs IH]; [discriminate|].
  destruct g; cbn; auto.
  intros [= -> -> Hgs]. rewrite bool_decide_eq_true_2 by reflexivity.
  now rewrite (Hnone _ Hgs).
Qed.

Lemma timers_without g w :
  timers w = [g] →
  timers (set_goroutines
            (List.filter (λ g', negb (bool_decide (g' = g))) (goroutines w)) w) = [].
Proof.
  unfold timers. cbn. intros H.
  rewrite filter_swap, H. cbn.
  now rewrite bool_decide_eq_true_2 by reflexivity.
Qed.

(** The shutdown timer wakes up. *)
Lemma fire_timer wk c s w :
  timers w = [ShutdownTimer wk c] →
  ∃ w', server.fire (ShutdownTimer wk c) (s, w) = (stopServer s, w')
    ∧ clock w' = Z.max (clock w) wk
    ∧ journal w' = journal w ++ forced (Z.max (clock w) wk) c
    ∧ contexts w' = <[c := true]> (contexts w)
    ∧ timers w' = [].
Proof.
  intros Ht. eexists. split; [reflexivity|].
  cbn. split; [reflexivity|]. split; [now rewrite <- app_assoc|].
  split; [reflexivity|].
  change (timers (close (server.grpcListener s)
            (set_goroutines
               (List.filter (λ g', negb (bool_decide (g' = ShutdownTimer wk c)))
                  (goroutines w)) w)) = []).
  rewrite timers_close. now apply timers_without.
Qed.

(** Time passes. *)
Lemma advance_idle t s w :
  timers w = [] → server.advance t s w = (s, set_clock (Z.max (clock w) t) w).
Proof.
  intros Ht. unfold server.advance.
  rewrite filter_due. fold (timers w). now rewrite Ht.
Qed.

Lemma advance_early t s w wk c :
  timers w = [ShutdownTimer wk c] → t < wk →
  server.advance t s w = (s, set_clock (Z.max (clock w) t) w).
Proof.
  intros Ht Hlt. unfold server.advance.
  rewrite filter_due. fold (timers w). rewrite Ht. cbn.
  destruct (Z.leb_spec wk t); [lia|]. reflexivity.
Qed.

Lemma advance_fires t s w wk c :
  timers w = [ShutdownTimer wk c] → clock w ≤ wk → wk ≤ t →
  ∃ w', server.advance t s w = (stopServer s, w')
    ∧ clock w' = t
    ∧ journal w' = journal w ++ forced wk c
    ∧ contexts w' = <[c := true]> (contexts w)
    ∧ timers w' = [].
Proof.
  intros Ht Hc Hle. unfold server.advance.
  rewrite filter_due. fold (timers w). rewrite Ht. cbn [List.filter server.due].
  destruct (Z.leb_spec wk t); [|lia]. cbn [fold_left].
  destruct (fire_timer wk c s w Ht) as (w' & -> & Hcl & Hj & Hx & Htm).
  eexists. split; [reflexivity|]. cbn.
  rewrite Hcl, Hj, Hx. replace (Z.max (clock w) wk) with wk by lia.
  repeat split; [lia|exact Htm].
Qed.

(** The calls [Run] blocks in. *)
Lemma Loop_spec env s w tS :
  timers w = [] →
  signals.Loop env (server.handler s) (clock w) = Some tS →
  clock w ≤ tS
  ∧ server.handler_Loop env s w = Some (s, note LoopReturned (set_clock tS w)).
Proof.
  intros Ht HL.
  assert (clock w ≤ tS) as Hle.
  { unfold signals.Loop in HL. destruct (signals.quit _).
    - injection HL as <-. lia.
    - destruct (stopAt env); cbn in HL; [injection HL as <-; lia|discriminate]. }
  split; [exact Hle|].
  unfold server.handler_Loop. rewrite HL. cbn.
  rewrite (advance_idle _ _ _ Ht). now replace (Z.max (clock w) tS) with tS by lia.
Qed.

Lemma GracefulStop_spec env s w wk c :
  grpc.stopped (server.GRPC s) = false →
  timers w = [ShutdownTimer wk c] →
  clock w ≤ wk →
  let tG := waitUntil (clock w) (rpcDrained env (clock w)) wk in
  ∃ w', server.GRPC_GracefulStop env s w = Some (stopServer s, w')
    ∧ clock w' = tG
    ∧ journal w' = journal w ++ [(clock w, GracefulStopCalled)]
                     ++ (if wk <=? tG then forced wk c else [])
                     ++ [(tG, GracefulStopReturned)]
    ∧ contexts w' = (if wk <=? tG then <[c := true]> (contexts w) else contexts w)
    ∧ timers w' = (if wk <=? tG then [] else [ShutdownTimer wk c]).
Proof.
  intros Hs Ht Hle tG. unfold server.GRPC_GracefulStop. rewrite Hs.
  set (w1 := close (server.grpcListener s) (note GracefulStopCalled w)).
  assert (timers w1 = [ShutdownTimer wk c]) as Ht1 by (unfold w1; now rewrite timers_close).
  rewrite (nextStop_one _ _ _ Ht1).
  change (clock w1) with (clock w).
  assert (earliest (rpcDrained env (clock w)) (Some wk)
          = Some (match rpcDrained env (clock w) with
                  | Some d => Z.min d wk | None => wk end)) as ->
    by (destruct (rpcDrained env (clock w)); reflexivity).
  cbn [mbind option_bind].
  fold (waitUntil (clock w) (rpcDrained env (clock w)) wk). fold tG.
  assert (clock w ≤ tG) as HG by (unfold tG, waitUntil; lia).
  destruct (Z.leb_spec wk tG) as [Hfire|Hearly].
  - destruct (advance_fires tG s w1 wk c Ht1 Hle Hfire) as (w2 & -> & Hc & Hj & Hx & Htm).
    eexists. split; [reflexivity|]. cbn. rewrite Hc, Hj, Hx.
    repeat split; [|exact Htm].
    unfold w1. cbn. now rewrite <- !app_assoc.
  - rewrite (advance_early tG s w1 wk c Ht1 Hearly).
    eexists. split; [reflexivity|]. cbn.
    replace (Z.max (clock w) tG) with tG by lia.
    repeat split; [|exact Ht1].
    now rewrite <- !app_assoc.
Qed.

Lemma Shutdown_spec env c s w wk (fired : bool) :
  timers w = (if fired then [] else [ShutdownTimer wk c]) →
  contexts w !! c = Some fired →
  (fired = false → clock w < wk) →
  let tH := waitUntil (clock w) (httpDrained env (clock w))
              (if fired then clock w else wk) in
  let fires := negb fired && (wk <=? tH) in
  ∃ w', server.httpServer_Shutdown env c s w
        = Some (if fires then stopServer s else s, w')
    ∧ clock w' = tH
    ∧ journal w' = journal w ++ [(clock w, ShutdownCalled)]
                     ++ (if fires then forced wk c else [])
                     ++ [(tH, ShutdownReturned)]
    ∧ contexts w' = (if fires then <[c := true]> (contexts w) else contexts w)
    ∧ timers w' = (if fired || fires then [] else [ShutdownTimer wk c]).
Proof.
  intros Ht Hx Hlt tH fires. unfold server.httpServer_Shutdown.
  set (w1 := close (server.httpListener s) (note ShutdownCalled w)).
  assert (timers w1 = timers w) as Ht1 by (unfold w1; now rewrite timers_close).
  rewrite Ht in Ht1.
  change (clock w1) with (clock w).
  assert ((if context.Done c w1 then Some (clock w) else server.nextCancel c w1)
          = Some (if fired then clock w else wk)) as ->.
  { unfold context.Done. change (contexts w1) with (contexts w). rewrite Hx.
    destruct fired.
    - now rewrite bool_decide_eq_true_2.
    - rewrite bool_decide_eq_false_2 by congruence.
      now apply nextCancel_one. }
  assert (∀ lim, earliest (httpDrained env (clock w)) (Some lim)
          = Some (match httpDrained env (clock w) with
                  | Some d => Z.min d lim | None => lim end)) as ->
    by (intros lim; destruct (httpDrained env (clock w)); reflexivity).
  cbn [mbind option_bind].
  fold (waitUntil (clock w) (httpDrained env (clock w)) (if fired then clock w else wk)).
  fold tH.
  assert (clock w ≤ tH) as HH by (unfold tH, waitUntil; lia).
  destruct fired; cbn [negb andb orb] in *.
  - rewrite (advance_idle tH s w1 Ht1).
    eexists. split; [reflexivity|]. cbn.
    replace (Z.max (clock w) tH) with tH by lia.
    repeat split; [|exact Ht1]. now rewrite <- !app_assoc.
  - specialize (Hlt eq_refl). unfold fires.
    destruct (Z.leb_spec wk tH) as [Hfire|Hearly].
    + destruct (advance_fires tH s w1 wk c Ht1 ltac:(cbn; lia) Hfire)
        as (w2 & -> & Hc & Hj & Hxx & Htm).
      eexists. split; [reflexivity|]. cbn. rewrite Hc, Hj, Hxx.
      repeat split; [|exact Htm].
      unfold w1. cbn. now rewrite <- !app_assoc.
    + rewrite (advance_early tH s w1 wk c Ht1 Hearly).
      eexists. split; [reflexivity|]. cbn.
      replace (Z.max (clock w) tH) with tH by lia.
      repeat split; [|exact Ht1]. now rewrite <- !app_assoc.
Qed.

Lemma cancel_last (l : list bool) :
  <[length l := true]> (l ++ [false]) = l ++ [true].
Proof.
  rewrite <- (Nat.add_0_r (length l)) at 1. now rewrite insert_app_r.
Qed.

Lemma waitUntil_ge now there limit : now ≤ waitUntil now there limit.
Proof. unfold waitUntil. lia. Qed.

Lemma deadline_ge s tS : tS ≤ deadline s tS.
Proof. unfold deadline. lia. Qed.

(** [Run], from the moment its [Loop] returns: the server and the world it
    leaves. *)
Lemma Run_spec env s w tS :
  ready s w →
  signals.Loop env (server.handler s) (clock w) = Some tS →
  let c := length (contexts w) in
  let tF := deadline s tS in
  let tH := httpEnd env s tS in
  ∃ w', server.Run env s w = Some (stopServer (server.registerBridge s), w')
    ∧ clock w' = tH
    ∧ journal w' = journal w ++ runJournal env s w tS
    ∧ contexts w' = contexts w ++ [bool_decide (tF ≤ tH)]
    ∧ timers w' = (if tF <=? tH then [] else [ShutdownTimer tF c]).
Proof.
  intros [Hs Ht] HL c tF tH. unfold server.Run, server.Run_start, server.Run_wait.
  set (w1 := go (HTTPServe (server.httpListener s)) w).
  cbn [context.WithCancel]. change (length (contexts w1)) with c.
  set (s1 := server.registerBridge s).
  set (w4 := go (GRPCServe (server.grpcListener s1))
               (note BridgeRegistered (set_contexts (contexts w1 ++ [false]) w1))).
  assert (timers w4 = []) as Ht4.
  { unfold w4. rewrite timers_go. cbn [List.filter server.isTimer app].
    change (timers (go (HTTPServe (server.httpListener s)) w) ++ [] = []).
    rewrite timers_go, Ht. reflexivity. }
  destruct (Loop_spec env s1 w4 tS Ht4 HL) as [HtS ->].
  cbn [mbind option_bind].
  change (server.cfg s1) with (server.cfg s).
  set (w5 := note LoopReturned (set_clock tS w4)).
  change (server.wakeAfter (server.ServerGracefulShutdownTimeout (server.cfg s)) w5)
    with tF.
  set (w6 := go (ShutdownTimer tF c) w5).
  assert (timers w6 = [ShutdownTimer tF c]) as Ht6.
  { unfold w6. rewrite timers_go. unfold w5.
    change (timers (note LoopReturned (set_clock tS w4))) with (timers w4).
    now rewrite Ht4. }
  pose proof (deadline_ge s tS) as HF. fold tF in HF.
  destruct (GracefulStop_spec env s1 w6 tF c Hs Ht6 HF)
    as (w7 & -> & Hc7 & Hj7 & Hx7 & Ht7).
  cbn [mbind option_bind].
  change (clock w6) with tS in *.
  set (tG := rpcEnd env s tS).
  change (waitUntil tS (rpcDrained env tS) tF) with tG in *.
  assert (tS ≤ tG) as HG by apply waitUntil_ge.
  destruct (Shutdown_spec env c (stopServer s1) w7 tF (tF <=? tG))
    as (w8 & -> & Hc8 & Hj8 & Hx8 & Ht8).
  { exact Ht7. }
  { rewrite Hx7. change (contexts w6) with (contexts w ++ [false]).
    destruct (tF <=? tG).
    - apply list_lookup_insert_eq. rewrite length_app. cbn. unfold c. lia.
    - unfold c. now rewrite list_lookup_middle. }
  { intros HFG. rewrite Hc7. destruct (Z.leb_spec tF tG); [discriminate|lia]. }
  cbn [mbind option_bind].
  rewrite Hc7 in *.
  assert (waitUntil tG (httpDrained env tG) (if tF <=? tG then tG else tF) = tH) as EH
    by reflexivity.
  rewrite EH in *.
  assert (tG ≤ tH) as HH by (rewrite <- EH; apply waitUntil_ge).
  eexists. split.
  { destruct (negb (tF <=? tG) && (tF <=? tH)); reflexivity. }
  split; [exact Hc8|]. split; [|split].
  - change (journal w8 ++ [(clock w8, RunReturned)] = journal w ++ runJournal env s w tS).
    rewrite Hc8, Hj8, Hj7.
    rewrite <- (Z.ltb_antisym tF tG).
    unfold runJournal. cbv zeta.
    assert (journal w6
            = journal w ++ [ (clock w, Go (HTTPServe (server.httpListener s)));
                             (clock w, BridgeRegistered);
                             (clock w, Go (GRPCServe (server.grpcListener s)));
                             (tS, LoopReturned);
                             (tS, Go (ShutdownTimer tF c)) ]) as ->
      by (unfold w6, w5, w4, w1, s1; cbn; now rewrite <- !app_assoc).
    rewrite <- !app_assoc. reflexivity.
  - change (contexts w8 = contexts w ++ [bool_decide (tF ≤ tH)]).
    rewrite Hx8, Hx7. change (contexts w6) with (contexts w ++ [false]).
    destruct (Z.leb_spec tF tG); cbn [negb andb].
    + rewrite bool_decide_eq_true_2 by lia. apply cancel_last.
    + destruct (Z.leb_spec tF tH).
      * rewrite bool_decide_eq_true_2 by lia. apply cancel_last.
      * rewrite bool_decide_eq_false_2 by lia. reflexivity.
  - change (timers w8 = (if tF <=? tH then [] else [ShutdownTimer tF c])).
    rewrite Ht8.
    destruct (Z.leb_spec tF tG); cbn [negb andb orb].
    + destruct (Z.leb_spec tF tH); [reflexivity|lia].
    + destruct (Z.leb_spec tF tH); reflexivity.
Qed.

Lemma Run_blocked env s w :
  ready s w →
  signals.Loop env (server.handler s) (clock w) = None →
  server.Run env s w = None.
Proof.
  intros _ HL. unfold server.Run, server.Run_start, server.Run_wait.
  cbn [context.WithCancel].
  match goal with
  | |- context [server.handler_Loop env ?s' ?w'] =>
      assert (server.handler_Loop env s' w' = None) as ->
  end; [|reflexivity].
  unfold server.handler_Loop.
  match goal with
  | |- context [signals.Loop env ?h ?t] =>
      change (signals.Loop env h t) with (signals.Loop env (server.handler s) (clock w))
  end.
  now rewrite HL.
Qed.

Lemma Run_returns env s w s' w' :
  ready s w →
  server.Run env s w = Some (s', w') →
  ∃ tS, signals.Loop env (server.handler s) (clock w) = Some tS.
Proof.
  intros Hr HR.
  destruct (signals.Loop env (server.handler s) (clock w)) as [tS|] eqn:HL; [eauto|].
  rewrite (Run_blocked env s w Hr HL) in HR. discriminate.
Qed.




Lemma rpcEnd_ge env s tS : tS ≤ rpcEnd env s tS.
Proof. unfold rpcEnd. apply waitUntil_ge. Qed.

(** The timer has done its work in every run that lasts until the deadline. *)
Lemma runJournal_forced env s w tS :
  deadline s tS ≤ httpEnd env s tS →
  ∃ j1 j2,
    runJournal env s w tS
    = j1 ++ forced (deadline s tS) (length (contexts w)) ++ j2
        ++ [ (httpEnd env s tS, ShutdownReturned); (httpEnd env s tS, RunReturned) ].
Proof.
  intros HF. unfold runJournal. cbv zeta.
  destruct (Z.leb_spec (deadline s tS) (rpcEnd env s tS)) as [H1|H1].
  - destruct (Z.ltb_spec (rpcEnd env s tS) (deadline s tS)); [lia|]. cbn [andb].
    exists [ (clock w, Go (HTTPServe (server.httpListener s)));
             (clock w, BridgeRegistered);
             (clock w, Go (GRPCServe (server.grpcListener s)));
             (tS, LoopReturned);
             (tS, Go (ShutdownTimer (deadline s tS) (length (contexts w))));
             (tS, GracefulStopCalled) ],
           [ (rpcEnd env s tS, GracefulStopReturned); (rpcEnd env s tS, ShutdownCalled) ].
    reflexivity.
  - destruct (Z.ltb_spec (rpcEnd env s tS) (deadline s tS)); [|lia].
    destruct (Z.leb_spec (deadline s tS) (httpEnd env s tS)); [|lia]. cbn [andb].
    exists [ (clock w, Go (HTTPServe (server.httpListener s)));
             (clock w, BridgeRegistered);
             (clock w, Go (GRPCServe (server.grpcListener s)));
             (tS, LoopReturned);
             (tS, Go (ShutdownTimer (deadline s tS) (length (contexts w))));
             (tS, GracefulStopCalled);
             (rpcEnd env s tS, GracefulStopReturned);
             (rpcEnd env s tS, ShutdownCalled) ],
           [].
    reflexivity.
Qed.



(** C8 (corrected): the two graceful stops run one after the other.  [Run]
    calls the graceful stop of the RPC server when [Loop] has returned, and
    it calls the shutdown of the HTTP server only when that call has
    returned, at the moment the RPC server has drained or has been stopped
    by the timer: the RPC server is always done before the HTTP server
    starts draining. *)
Theorem Run_shuts_down_in_turn env s w s' w' :
  ready s w →
  server.Run env s w = Some (s', w') →
  ∃ tS j1 j2 j3,
    signals.Loop env (server.handler s) (clock w) = Some tS
    ∧ journal w'
      = journal w ++ j1 ++ [ (tS, GracefulStopCalled) ] ++ j2
          ++ [ (rpcEnd env s tS, GracefulStopReturned);
               (rpcEnd env s tS, ShutdownCalled) ]
          ++ j3
    ∧ tS ≤ rpcEnd env s tS
    ∧ occurrences ShutdownCalled (j1 ++ j2 ++ j3) = 0%nat
    ∧ occurrences GracefulStopCalled (j1 ++ j2 ++ j3) = 0%nat.
Proof.
  intros Hr HR.
  destruct (Run_returns env s w s' w' Hr HR) as [tS HL].
  destruct (Run_spec env s w tS Hr HL) as (w1 & HR1 & _ & Hj & _).
  rewrite HR in HR1. injection HR1 as -> ->.
  exists tS,
    [ (clock w, Go (HTTPServe (server.httpListener s)));
      (clock w, BridgeRegistered);
      (clock w, Go (GRPCServe (server.grpcListener s)));
      (tS, LoopReturned);
      (tS, Go (ShutdownTimer (deadline s tS) (length (contexts w)))) ],
    (if deadline s tS <=? rpcEnd env s tS
     then forced (deadline s tS) (length (contexts w)) else []),
    ((if (rpcEnd env s tS <? deadline s tS) && (deadline s tS <=? httpEnd env s tS)
      then forced (deadline s tS) (length (contexts w)) else [])
     ++ [ (httpEnd env s tS, ShutdownReturned); (httpEnd env s tS, RunReturned) ]).
  split; [exact HL|]. split; [|split; [apply rpcEnd_ge|]].
  - rewrite Hj. reflexivity.
  - split.
    + destruct (deadline s tS <=? rpcEnd env s tS);
        destruct ((rpcEnd env s tS <? deadline s tS)
                  && (deadline s tS <=? httpEnd env s tS)); reflexivity.
    + destruct (deadline s tS <=? rpcEnd env s tS);
        destruct ((rpcEnd env s tS <? deadline s tS)
                  && (deadline s tS <=? httpEnd env s tS)); reflexivity.
Qed.

Lemma Run_shuts_down_in_turn_witness :
  ∃ tS j1 j2 j3,
    signals.Loop example.calm (server.handler example.server) (clock example.started)
    = Some tS
    ∧ journal (snd (default (example.server, example.started)
                      (server.Run example.calm example.server example.started)))
      = journal example.started ++ j1 ++ [ (tS, GracefulStopCalled) ] ++ j2
          ++ [ (rpcEnd example.calm example.server tS, GracefulStopReturned);
               (rpcEnd example.calm example.server tS, ShutdownCalled) ]
          ++ j3
    ∧ tS ≤ rpcEnd example.calm example.server tS
    ∧ occurrences ShutdownCalled (j1 ++ j2 ++ j3) = 0%nat
    ∧ occurrences GracefulStopCalled (j1 ++ j2 ++ j3) = 0%nat.
Proof.
  destruct (server.Run example.calm example.server example.started) as [[s' w']|] eqn:HR.
  - apply (Run_shuts_down_in_turn example.calm example.server example.started s' w').
    + split; vm_compute; reflexivity.
    + exact HR.
  - vm_compute in HR. discriminate HR.
Defined.

Lemma shutdowns_do_not_start_together :
  ¬ shutdowns_start_together example.calm example.server example.started.
Proof.
  intros H. edestruct H as (t & H1 & H2); [vm_compute; reflexivity|].
  cbn in H1, H2.
  repeat (destruct H1 as [H1|H1]; [try discriminate H1|]); [|contradiction].
  injection H1 as <-.
  repeat (destruct H2 as [H2|H2]; [try discriminate H2|]); contradiction.
Qed.



(** Each call of the shutdown sequence is made once in a run. *)
Lemma runJournal_once env s w tS :
  occurrences LoopReturned (runJournal env s w tS) = 1%nat
  ∧ occurrences GracefulStopCalled (runJournal env s w tS) = 1%nat
  ∧ occurrences ShutdownCalled (runJournal env s w tS) = 1%nat
  ∧ occurrences RunReturned (runJournal env s w tS) = 1%nat
  ∧ (occurrences StopCalled (runJournal env s w tS) ≤ 1)%nat.
Proof.
  unfold runJournal. cbv zeta.
  destruct (Z.leb_spec (deadline s tS) (rpcEnd env s tS));
    destruct (Z.ltb_spec (rpcEnd env s tS) (deadline s tS)); try lia;
    destruct (deadline s tS <=? httpEnd env s tS);
    repeat split; vm_compute; lia.
Qed.

(** ** The server [New] returns *)

(** The goroutines that wake up leave the registered methods and the
    interceptor of the RPC server as they are. *)
Lemma fire_methods g s w :
  grpc.m (server.GRPC (fst (server.fire g (s, w)))) = grpc.m (server.GRPC s).
Proof. destruct g; reflexivity. Qed.

Lemma fires_methods (gs : list Goroutine) sw :
  grpc.m (server.GRPC (fst (fold_left (λ sw g, server.fire g sw) gs sw)))
  = grpc.m (server.GRPC (fst sw)).
Proof.
  revert sw. induction gs as [|g gs IH]; intros [s w]; [reflexivity|].
  cbn [fold_left]. rewrite IH.
  destruct (server.fire g (s, w)) as [s1 w1] eqn:E.
  change s1 with (fst (s1, w1)). rewrite <- E. apply fire_methods.
Qed.

Lemma advance_methods t s w :
  grpc.m (server.GRPC (fst (server.advance t s w))) = grpc.m (server.GRPC s).
Proof.
  unfold server.advance.
  pose proof (fires_methods (List.filter (server.due t) (goroutines w)) (s, w)) as H.
  destruct (fold_left _ _ _) as [s1 w1]. exact H.
Qed.

(** From [Loop] on, [Run] registers nothing and unregisters nothing. *)
Lemma Run_wait_methods env c s w s' w' :
  server.Run_wait env c s w = Some (s', w') →
  grpc.m (server.GRPC s') = grpc.m (server.GRPC s).
Proof.
  unfold server.Run_wait, server.handler_Loop.
  destruct (signals.Loop _ _ _) as [t|]; [|discriminate]. cbn [mbind option_bind].
  pose proof (advance_methods t s w) as H1.
  destruct (server.advance t s w) as [s1 w1]. cbn [fst] in H1.
  cbn [mbind option_bind].
  match goal with
  | |- context [server.GRPC_GracefulStop env s1 ?w2] =>
      destruct (server.GRPC_GracefulStop env s1 w2) as [[s3 w3]|] eqn:EG; [|discriminate]
  end.
  cbn [mbind option_bind].
  destruct (server.httpServer_Shutdown env c s3 w3) as [[s4 w4]|] eqn:ES; [|discriminate].
  cbn [mbind option_bind]. intros [= <- <-].
  assert (grpc.m (server.GRPC s3) = grpc.m (server.GRPC s1)) as H3.
  { unfold server.GRPC_GracefulStop in EG.
    destruct (grpc.stopped (server.GRPC s1)); [now injection EG as <- _|].
    destruct (earliest _ _) as [t'|]; [|discriminate]. cbn [mbind option_bind] in EG.
    match type of EG with
    | context [server.advance ?t0 s1 ?w0] =>
        pose proof (advance_methods t0 s1 w0) as HA;
        destruct (server.advance t0 s1 w0) as [s5 w5]
    end.
    injection EG as <- _. exact HA. }
  assert (grpc.m (server.GRPC s4) = grpc.m (server.GRPC s3)) as H4.
  { unfold server.httpServer_Shutdown in ES.
    destruct (earliest _ _) as [t'|]; [|discriminate]. cbn [mbind option_bind] in ES.
    match type of ES with
    | context [server.advance ?t0 s3 ?w0] =>
        pose proof (advance_methods t0 s3 w0) as HA;
        destruct (server.advance t0 s3 w0) as [s5 w5]
    end.
    injection ES as <- _. exact HA. }
  congruence.
Qed.

(** C3 (corrected): the Server [New] returns has its HTTP listener bound
    before its RPC listener, the histogram registered, both chains built,
    the HTTP server with the configured read, write and idle timeouts, and
    nothing running in the background.  The bridge service is not registered
    on the RPC server yet.  [Run] registers it, in whatever world it is
    called: after it has started the goroutine that serves the HTTP
    listener, before it starts the one that serves the RPC listener and
    before it waits for the stop signal.  So the bridge is registered on
    the server [Run] waits with, whether [Run] ever returns or not, and on
    the server [Run] returns. *)
Theorem New_fully_formed cfg w s w' :
  server.New cfg w = (server.Ok s, w') →
  journal w'
  = journal w
      ++ [ (clock w, Bound (port (server.httpListener s)));
           (clock w, Bound (port (server.grpcListener s)));
           (clock w, Registered (prometheus.fqName (server.requestDuration cfg))) ]
  ∧ port (server.httpListener s) ∈ listening w'
  ∧ port (server.grpcListener s) ∈ listening w'
  ∧ prometheus.fqName (server.requestDuration cfg) ∈ DefaultRegisterer w'
  ∧ server.Handler (server.httpServer s)
    = middleware.Wrap (middleware.Merge (builtinHTTP cfg ++ server.HTTPMiddleware cfg))
        mux.ServeHTTP
  ∧ grpc.unaryInt (server.GRPC s)
    = Some (grpc_middleware.ChainUnaryServer (builtinGRPC cfg ++ server.GRPCMiddleware cfg))
  ∧ server.ReadTimeout (server.httpServer s) = server.HTTPServerReadTimeout cfg
  ∧ server.WriteTimeout (server.httpServer s) = server.HTTPServerWriteTimeout cfg
  ∧ server.IdleTimeout (server.httpServer s) = server.HTTPServerIdleTimeout cfg
  ∧ ¬ bridgeRegistered (server.GRPC s)
  ∧ (∀ r, server.ServeGRPC s httpgrpc.HandleMethod r
          = (inr ("unknown method " +:+ httpgrpc.HandleMethod), []))
  ∧ (∀ w0,
       grpc.lookup_method httpgrpc.HandleMethod (server.GRPC (running s w0))
       = Some (httpgrpc.Handle (httpgrpc.NewServer mux.ServeHTTP))
       ∧ journal (snd (server.Run_start s w0))
         = journal w0
             ++ [ (clock w0, Go (HTTPServe (server.httpListener s)));
                  (clock w0, BridgeRegistered);
                  (clock w0, Go (GRPCServe (server.grpcListener s))) ]
       ∧ goroutines (snd (server.Run_start s w0))
         = goroutines w0
             ++ [ HTTPServe (server.httpListener s); GRPCServe (server.grpcListener s) ]
       ∧ (∀ env,
            server.Run env s w0
            = server.Run_wait env (fst (fst (server.Run_start s w0))) (running s w0)
                (snd (server.Run_start s w0)))
       ∧ (∀ env s1 w1,
            server.Run env s w0 = Some (s1, w1) →
            grpc.lookup_method httpgrpc.HandleMethod (server.GRPC s1)
            = Some (httpgrpc.Handle (httpgrpc.NewServer mux.ServeHTTP))))
  ∧ goroutines w' = goroutines w
  ∧ contexts w' = contexts w
  ∧ clock w' = clock w.
Proof.
  intros H. apply New_Ok in H as (lh & w1 & lg & w2 & Hh & Hg & Hr & ->).
  apply Listen_binds in Hh as [_ ->].
  apply Listen_binds in Hg as [_ ->].
  apply MustRegister_Some in Hr as [_ ->].
  cbn [server.httpListener server.grpcListener server.httpServer server.GRPC
       server.Handler server.ReadTimeout server.WriteTimeout server.IdleTimeout].
  split; [cbn; now rewrite <- !app_assoc|].
  split; [cbn; set_solver|]. split; [cbn; set_solver|]. split; [cbn; set_solver|].
  do 5 (split; [reflexivity|]).
  split; [intros [h Hh]; discriminate Hh|].
  split; [reflexivity|].
  split; [|repeat split].
  intros w0.
  split; [reflexivity|].
  split; [cbn; now rewrite <- !app_assoc|].
  split; [cbn; now rewrite <- !app_assoc|].
  split; [reflexivity|].
  intros env s1 w3 HR.
  change (server.Run env ?s0 w0)
    with (server.Run_wait env (fst (fst (server.Run_start s0 w0))) (running s0 w0)
            (snd (server.Run_start s0 w0))) in HR.
  apply Run_wait_methods in HR.
  unfold grpc.lookup_method. rewrite HR. reflexivity.
Qed.

Lemma New_fully_formed_witness :
  server.New example.other example.world = (server.Ok example.server, example.started)
  ∧ ¬ bridgeRegistered (server.GRPC example.server)
  ∧ bridgeRegistered (server.GRPC (running example.server example.started))
  ∧ server.Run example.quiet example.server example.started = None.
Proof.
  assert (server.New example.other example.world
          = (server.Ok example.server, example.started)) as HN
    by (vm_compute; reflexivity).
  split; [exact HN|].
  pose proof (New_fully_formed _ _ _ _ HN)
    as (_ & _ & _ & _ & _ & _ & _ & _ & _ & Hnot & _ & Hrun & _).
  split; [exact Hnot|].
  destruct (Hrun example.started) as (Hreg & _).
  split; [unfold bridgeRegistered; rewrite Hreg; eexists; reflexivity|].
  vm_compute; reflexivity.
Defined.

Lemma New_does_not_register_bridge :
  ¬ fully_formed_with_bridge example.other example.world.
Proof.
  intros H. edestruct H as (_ & _ & _ & [h Hh] & _); [vm_compute; reflexivity|].
  vm_compute in Hh. discriminate Hh.
Qed.

(** ** The HTTP-over-gRPC bridge *)













(** * Further properties of the code *)


(** ** The flags of a Config *)

Lemma Var_Some {P} (p : P) name value usage (f : gmap string (flag.Flag P)) :
  f !! name = None →
  flag.Var p name value usage f
  = Some (<[name := {| flag.Usage := usage; flag.DefValue := value; flag.Target := p |}]> f).
Proof. unfold flag.Var. now intros ->. Qed.

Lemma Var_None {P} (p : P) name value usage (f : gmap string (flag.Flag P)) :
  is_Some (f !! name) → flag.Var p name value usage f = None.
Proof. unfold flag.Var. now intros [fl ->]. Qed.

(** The flag set [RegisterFlags] leaves when none of its names is taken. *)
Lemma RegisterFlagsIn_fresh cfg (f : gmap string (flag.Flag server.Ref)) :
  Forall (λ name, f !! name = None) server.flagNames →
  server.RegisterFlagsIn cfg f
  = Some (server.RegisterFlags cfg,
      <["server.http-idle-timeout" :=
          {| flag.Usage := "Idle timeout for HTTP server";
             flag.DefValue := flag.DurationValue (120 * server.Second);
             flag.Target := server.OfDuration server.HTTPServerIdleTimeoutRef |}]>
     (<["server.http-write-timeout" :=
          {| flag.Usage := "Write timeout for HTTP server";
             flag.DefValue := flag.DurationValue (5 * server.Second);
             flag.Target := server.OfDuration server.HTTPServerWriteTimeoutRef |}]>
     (<["server.http-read-timeout" :=
          {| flag.Usage := "Read timeout for HTTP server";
             flag.DefValue := flag.DurationValue (5 * server.Second);
             flag.Target := server.OfDuration server.HTTPServerReadTimeoutRef |}]>
     (<["server.graceful-shutdown-timeout" :=
          {| flag.Usage := "Timeout for graceful shutdowns";
             flag.DefValue := flag.DurationValue (5 * server.Second);
             flag.Target := server.OfDuration server.ServerGracefulShutdownTimeoutRef |}]>
     (<["server.grpc-listen-port" :=
          {| flag.Usage := "gRPC server listen port.";
             flag.DefValue := flag.IntValue 9095;
             flag.Target := server.OfInt server.GRPCListenPortRef |}]>
     (<["server.http-listen-port" :=
          {| flag.Usage := "HTTP server listen port.";
             flag.DefValue := flag.IntValue 80;
             flag.Target := server.OfInt server.HTTPListenPortRef |}]>
     (<["server.log-success" :=
          {| flag.Usage := "Log successful requests";
             flag.DefValue := flag.BoolValue false;
             flag.Target := server.OfBool server.LogSuccessRef |}]> f))))))).
Proof.
  intros Hfree.
  unfold server.flagNames in Hfree. rewrite !Forall_cons in Hfree.
  destruct Hfree as (? & ? & ? & ? & ? & ? & ? & _).
  unfold server.RegisterFlagsIn, server.BoolVar, server.IntVar, server.DurationVar.
  cbn [fst snd].
  repeat (rewrite Var_Some by (rewrite ?lookup_insert_ne by discriminate; assumption);
          cbn [mbind option_bind fst snd]).
  reflexivity.
Qed.

(** X1: on a flag set that has none of the seven names, [RegisterFlags]
    does not panic: the Config takes the defaults of the flags (and keeps
    its namespace and its middleware), the seven names are defined and the
    flags that were there before are as they were. *)
Theorem RegisterFlags_defines cfg (f : gmap string (flag.Flag server.Ref)) :
  Forall (λ name, f !! name = None) server.flagNames →
  ∃ f',
    server.RegisterFlagsIn cfg f = Some (server.RegisterFlags cfg, f')
    ∧ dom f' = list_to_set server.flagNames ∪ dom f
    ∧ (∀ name, name ∉ server.flagNames → f' !! name = f !! name)
    ∧ flag.DefValue <$> f' !! "server.http-listen-port" = Some (flag.IntValue 80)
    ∧ flag.DefValue <$> f' !! "server.grpc-listen-port" = Some (flag.IntValue 9095)
    ∧ flag.DefValue <$> f' !! "server.graceful-shutdown-timeout"
      = Some (flag.DurationValue 5000000000).
Proof.
  intros Hfree. eexists. split; [now apply RegisterFlagsIn_fresh|].
  split; [|split].
  - rewrite !dom_insert_L. unfold server.flagNames. cbn [list_to_set].
    apply set_eq. intros x.
    rewrite !elem_of_union, !elem_of_singleton, elem_of_empty. tauto.
  - intros name Hname. unfold server.flagNames in Hname.
    do 7 (apply not_elem_of_cons in Hname as [? Hname]).
    now rewrite !lookup_insert_ne by congruence.
  - repeat split; now simplify_map_eq.
Qed.

Lemma RegisterFlags_defines_witness :
  ∃ f',
    server.RegisterFlagsIn (example.config "app") ∅
    = Some (server.RegisterFlags (example.config "app"), f')
    ∧ dom f' = list_to_set server.flagNames ∪ dom (∅ : gmap string (flag.Flag server.Ref)).
Proof.
  destruct (RegisterFlags_defines (example.config "app") ∅) as (f' & H1 & H2 & _).
  - unfold server.flagNames. repeat constructor.
  - exists f'. now split.
Defined.

Lemma RegisterFlagsIn_taken cfg (f : gmap string (flag.Flag server.Ref)) :
  Exists (λ name, is_Some (f !! name)) server.flagNames →
  server.RegisterFlagsIn cfg f = None.
Proof.
  intros Hex.
  unfold server.RegisterFlagsIn, server.BoolVar, server.IntVar, server.DurationVar,
    flag.Var.
  cbn [fst snd].
  repeat match goal with
         | |- context [match ?m !! ?k with _ => _ end] =>
             destruct (m !! k) eqn:?; cbn [mbind option_bind fst snd]; [reflexivity|]
         end.
  exfalso.
  repeat match goal with
         | H : <[_ := _]> _ !! _ = None |- _ =>
             rewrite lookup_insert_ne in H by discriminate
         end.
  unfold server.flagNames in Hex. rewrite !Exists_cons, Exists_nil in Hex.
  destruct Hex as [[? E]|[[? E]|[[? E]|[[? E]|[[? E]|[[? E]|[[? E]|[]]]]]]]];
    congruence.
Qed.

Lemma RegisterFlagsIn_Some cfg (f : gmap string (flag.Flag server.Ref)) cfg' f' :
  server.RegisterFlagsIn cfg f = Some (cfg', f') →
  Forall (λ name, f !! name = None) server.flagNames.
Proof.
  intros HSome. apply Forall_forall. intros name Hin.
  destruct (f !! name) eqn:E; [|reflexivity].
  rewrite (RegisterFlagsIn_taken cfg f) in HSome; [discriminate|].
  apply Exists_exists. exists name. split; [exact Hin|eauto].
Qed.

(** X2: [RegisterFlags] panics exactly when the flag set defines one of its
    seven names already.  So the flags of a second Config cannot be added
    to a flag set that has those of a first one. *)
Theorem RegisterFlags_panics_iff cfg (f : gmap string (flag.Flag server.Ref)) :
  (server.RegisterFlagsIn cfg f = None
   ↔ Exists (λ name, is_Some (f !! name)) server.flagNames)
  ∧ (∀ cfg' f' cfg2,
       server.RegisterFlagsIn cfg f = Some (cfg', f') →
       server.RegisterFlagsIn cfg2 f' = None).
Proof.
  split; [split|].
  - intros HNone.
    destruct (decide (Exists (λ name, is_Some (f !! name)) server.flagNames)) as [|Hno];
      [assumption|].
    rewrite (RegisterFlagsIn_fresh cfg f) in HNone; [discriminate|].
    apply Forall_forall. intros name Hin.
    destruct (f !! name) eqn:E; [|reflexivity].
    exfalso. apply Hno. apply Exists_exists. exists name. split; [exact Hin|eauto].
  - apply RegisterFlagsIn_taken.
  - intros cfg' f' cfg2 HSome. apply RegisterFlagsIn_taken.
    rewrite (RegisterFlagsIn_fresh cfg f (RegisterFlagsIn_Some _ _ _ _ HSome)) in HSome.
    injection HSome as _ <-.
    apply Exists_cons_hd. now simplify_map_eq.
Qed.

Lemma RegisterFlags_panics_iff_witness :
  ∃ cfg' f',
    server.RegisterFlagsIn (example.config "app") ∅ = Some (cfg', f')
    ∧ server.RegisterFlagsIn example.other f' = None.
Proof.
  assert (Forall (λ name, (∅ : gmap string (flag.Flag server.Ref)) !! name = None)
            server.flagNames) as Hfree by (repeat constructor).
  pose proof (RegisterFlagsIn_fresh (example.config "app") ∅ Hfree) as E.
  eexists _, _. split; [exact E|].
  exact (proj2 (RegisterFlags_panics_iff (example.config "app") ∅) _ _ example.other E).
Defined.



(** ** More on [New] *)

Lemma ephemeral_range (used : gset Z) :
  net.ephemeral used = 0 ∨ 49152 ≤ net.ephemeral used.
Proof.
  unfold net.ephemeral.
  destruct (find (λ p, bool_decide (p ∉ used)) (seqZ 49152 16384)) as [q|] eqn:Hq.
  - right. change (49152 ≤ q).
    apply List.find_some in Hq as [Hq _].
    rewrite <- list_elem_of_In, elem_of_seqZ in Hq. lia.
  - left. reflexivity.
Qed.

Lemma Listen_port p w l w1 :
  net.Listen p w = (inr l, w1) →
  0 < port l ∧ (p ≠ 0 → port l = p).
Proof.
  unfold net.Listen.
  destruct ((p <? 0) || (65535 <? p)) eqn:Hr; [congruence|].
  apply orb_false_iff in Hr as [Hlo _]. apply Z.ltb_ge in Hlo.
  set (q := if p =? 0 then net.ephemeral (listening w) else p).
  destruct (bool_decide (q ∈ listening w) || (q =? 0)) eqn:Hb; [congruence|].
  apply orb_false_iff in Hb as [_ Hq0]. apply Z.eqb_neq in Hq0.
  intros [= <- _]. change (port {| port := q |}) with q.
  unfold q in *. destruct (Z.eqb_spec p 0) as [->|Hp].
  - split; [|congruence].
    destruct (ephemeral_range (listening w)); [congruence|lia].
  - split; [lia|reflexivity].
Qed.



Lemma Listen_free p w :
  0 < p ≤ 65535 → p ∉ listening w →
  net.Listen p w
  = (inr {| port := p |}, note (Bound p) (set_listening ({[p]} ∪ listening w) w)).
Proof.
  intros Hp Hfree. unfold net.Listen.
  assert ((p <? 0) = false) as -> by (apply Z.ltb_ge; lia).
  assert ((65535 <? p) = false) as -> by (apply Z.ltb_ge; lia).
  assert ((p =? 0) = false) as E by (apply Z.eqb_neq; lia).
  cbv zeta. rewrite E. cbv iota. rewrite E.
  rewrite bool_decide_eq_false_2 by assumption. reflexivity.
Qed.

(** X4: the Server [New] returns listens on two different ports that were
    free before; these two are all that [New] binds, and they are the
    configured ports unless the Configuration asks for port 0.  The
    histogram name was not registered before, and it is all that [New]
    registers. *)
Theorem New_binds_two_ports cfg w s w' :
  server.New cfg w = (server.Ok s, w') →
  port (server.httpListener s) ≠ port (server.grpcListener s)
  ∧ (port (server.httpListener s) ∉ listening w)
  ∧ (port (server.grpcListener s) ∉ listening w)
  ∧ listening w'
    = {[port (server.httpListener s); port (server.grpcListener s)]} ∪ listening w
  ∧ (server.HTTPListenPort cfg ≠ 0 →
     port (server.httpListener s) = server.HTTPListenPort cfg)
  ∧ (server.GRPCListenPort cfg ≠ 0 →
     port (server.grpcListener s) = server.GRPCListenPort cfg)
  ∧ (prometheus.fqName (server.requestDuration cfg) ∉ DefaultRegisterer w)
  ∧ DefaultRegisterer w'
    = {[prometheus.fqName (server.requestDuration cfg)]} ∪ DefaultRegisterer w.
Proof.
  intros H. apply New_Ok in H as (lh & w1 & lg & w2 & Hh & Hg & Hr & ->).
  destruct (Listen_port _ _ _ _ Hh) as [_ Hph].
  destruct (Listen_port _ _ _ _ Hg) as [_ Hpg].
  apply Listen_binds in Hh as [Hfh ->].
  apply Listen_binds in Hg as [Hfg ->].
  apply MustRegister_Some in Hr as [Hfr ->].
  cbn in *.
  assert (port lg ≠ port lh) as Hne.
  { intros E. apply Hfg. rewrite E. apply elem_of_union_l, elem_of_singleton. reflexivity. }
  assert (port lg ∉ listening w) as Hfg'.
  { intros Hin. apply Hfg. now apply elem_of_union_r. }
  split; [congruence|]. split; [assumption|]. split; [assumption|].
  split; [|auto].
  apply set_eq. intros x.
  rewrite !elem_of_union, !elem_of_singleton. tauto.
Qed.

Lemma New_binds_two_ports_witness :
  ∃ s w',
    server.New example.other example.world = (server.Ok s, w')
    ∧ port (server.httpListener s) = server.HTTPListenPort example.other.
Proof.
  eexists _, _. split; [vm_compute; reflexivity|].
  match goal with
  | |- port (server.httpListener ?s) = _ =>
      refine (proj1 (proj2 (proj2 (proj2 (proj2
                (New_binds_two_ports example.other example.world s
                   (snd (server.New example.other example.world)) _))))) _)
  end.
  - vm_compute; reflexivity.
  - discriminate.
Defined.





(** X7: whatever its outcome, [New] starts no goroutine, makes no context
    and takes no time; it closes no listener and removes no metric, and it
    only adds to the journal.  When it returns an error the registry is as
    it was. *)
Theorem New_frame cfg w r w' :
  server.New cfg w = (r, w') →
  goroutines w' = goroutines w
  ∧ contexts w' = contexts w
  ∧ clock w' = clock w
  ∧ listening w ⊆ listening w'
  ∧ DefaultRegisterer w ⊆ DefaultRegisterer w'
  ∧ (∃ j, journal w' = journal w ++ j)
  ∧ (∀ e, r = server.Err e → DefaultRegisterer w' = DefaultRegisterer w).
Proof.
  unfold server.New. intros H.
  destruct (net.Listen (server.HTTPListenPort cfg) w) as [[e|lh] w1] eqn:Hh.
  { apply Listen_fails in Hh as ->. injection H as <- <-.
    repeat split; try reflexivity. exists []. now rewrite app_nil_r. }
  apply Listen_binds in Hh as [_ ->].
  destruct (net.Listen (server.GRPCListenPort cfg) _) as [[e|lg] w2] eqn:Hg.
  { apply Listen_fails in Hg as ->. injection H as <- <-. cbn.
    repeat split; try reflexivity; [apply union_subseteq_r|eauto]. }
  apply Listen_binds in Hg as [_ ->].
  destruct (prometheus.MustRegister _ _) as [w3|] eqn:Hr;
    [apply MustRegister_Some in Hr as [_ ->]|];
    injection H as <- <-; cbn;
    (split; [reflexivity|]); (split; [reflexivity|]); (split; [reflexivity|]);
    (split; [etrans; [|apply union_subseteq_r]; apply union_subseteq_r|]);
    (split; [first [apply union_subseteq_r|reflexivity]|]);
    (split; [rewrite <- ?app_assoc; eauto|discriminate]).
Qed.

Lemma New_frame_witness :
  goroutines (snd (server.New (example.config "app") example.busy))
  = goroutines example.busy.
Proof.
  apply (New_frame (example.config "app") example.busy
           (fst (server.New (example.config "app") example.busy))).
  now destruct (server.New (example.config "app") example.busy).
Defined.

(** ** More on [Run] *)

Lemma rpcEnd_le_deadline env s tS : rpcEnd env s tS ≤ deadline s tS.
Proof.
  pose proof (deadline_ge s tS). unfold rpcEnd, waitUntil.
  destruct (rpcDrained env tS); lia.
Qed.

Lemma httpEnd_bounds env s tS :
  rpcEnd env s tS ≤ httpEnd env s tS ≤ deadline s tS.
Proof.
  pose proof (rpcEnd_le_deadline env s tS). unfold httpEnd, waitUntil.
  destruct (Z.leb_spec (deadline s tS) (rpcEnd env s tS));
    destruct (httpDrained env (rpcEnd env s tS)); lia.
Qed.

Lemma ends_graceful env s tS t :
  gracefulEnd env tS = Some t → t < deadline s tS →
  rpcEnd env s tS < deadline s tS ∧ httpEnd env s tS = t.
Proof.
  unfold gracefulEnd, httpEnd, rpcEnd, waitUntil. intros Hg Ht.
  destruct (rpcDrained env tS) as [d|]; cbn in Hg; [|discriminate].
  replace (Z.max tS (Z.min d (deadline s tS))) with (Z.max tS d).
  - destruct (httpDrained env (Z.max tS d)) as [h|]; cbn in Hg; [|discriminate].
    injection Hg as <-.
    destruct (Z.leb_spec (deadline s tS) (Z.max tS d)); lia.
  - destruct (httpDrained env (Z.max tS d)) as [h|]; cbn in Hg; [|discriminate].
    injection Hg as <-. lia.
Qed.

(** X8: under its own steam [Run] never returns: it blocks for ever exactly
    when [Stop] has not been called on the server and no stop signal ever
    comes. *)
Theorem Run_blocks_iff env s w :
  ready s w →
  (server.Run env s w = None
   ↔ signals.quit (server.handler s) = false ∧ stopAt env = None).
Proof.
  intros Hr. split.
  - intros HNone.
    destruct (signals.Loop env (server.handler s) (clock w)) as [tS|] eqn:HL.
    + destruct (Run_spec env s w tS Hr HL) as (w' & HR & _). congruence.
    + unfold signals.Loop in HL.
      destruct (signals.quit (server.handler s)); [discriminate|].
      destruct (stopAt env); [discriminate|]. now split.
  - intros [Hq Hs]. apply Run_blocked; [exact Hr|].
    unfold signals.Loop. now rewrite Hq, Hs.
Qed.

Lemma Run_blocks_iff_witness :
  server.Run example.quiet example.server example.started = None.
Proof.
  apply (Run_blocks_iff example.quiet example.server example.started).
  - split; vm_compute; reflexivity.
  - split; reflexivity.
Defined.

(** X9: the shutdown is bounded: when [Run] returns, it does so no earlier
    than the stop signal and no later than the graceful-shutdown timeout
    after it, however long the calls in flight take. *)
Theorem Run_returns_within_timeout env s w s' w' :
  ready s w →
  server.Run env s w = Some (s', w') →
  ∃ tS,
    signals.Loop env (server.handler s) (clock w) = Some tS
    ∧ clock w ≤ tS
    ∧ tS ≤ clock w'
    ∧ clock w' ≤ tS + Z.max 0 (server.ServerGracefulShutdownTimeout (server.cfg s)).
Proof.
  intros Hr HR.
  destruct (Run_returns env s w s' w' Hr HR) as [tS HL].
  destruct (Run_spec env s w tS Hr HL) as (w1 & HR1 & Hc & _).
  rewrite HR in HR1. injection HR1 as -> ->.
  exists tS. split; [exact HL|].
  pose proof (httpEnd_bounds env s tS). pose proof (rpcEnd_ge env s tS).
  assert (clock w ≤ tS).
  { unfold signals.Loop in HL. destruct (signals.quit _); [injection HL as <-; lia|].
    destruct (stopAt env); cbn in HL; [injection HL as <-; lia|discriminate]. }
  unfold deadline in *. lia.
Qed.

Lemma Run_returns_within_timeout_witness :
  ∃ s' w' tS,
    server.Run example.stuck example.server example.started = Some (s', w')
    ∧ tS ≤ clock w'
    ∧ clock w' ≤ tS + Z.max 0 (server.ServerGracefulShutdownTimeout
                                 (server.cfg example.server)).
Proof.
  destruct (server.Run example.stuck example.server example.started)
    as [[s' w']|] eqn:HR.
  - destruct (Run_returns_within_timeout example.stuck example.server example.started
                s' w') as (tS & _ & _ & H1 & H2).
    + split; vm_compute; reflexivity.
    + exact HR.
    + exists s', w', tS. auto.
  - vm_compute in HR. discriminate HR.
Defined.

(** X10: when the two graceful stops are over before the deadline, [Run]
    returns as soon as the HTTP server has drained, nothing has been forced
    by then (no cancel, no [Stop] on the RPC server) and the timer goroutine
    is still asleep. *)
Theorem Run_graceful_in_time env s w tS t :
  ready s w →
  signals.Loop env (server.handler s) (clock w) = Some tS →
  gracefulEnd env tS = Some t →
  t < deadline s tS →
  ∃ s' w' j,
    server.Run env s w = Some (s', w')
    ∧ clock w' = t
    ∧ journal w' = journal w ++ j
    ∧ occurrences StopCalled j = 0%nat
    ∧ occurrences (CancelCalled (length (contexts w))) j = 0%nat
    ∧ contexts w' !! length (contexts w) = Some false
    ∧ timers w' = [ShutdownTimer (deadline s tS) (length (contexts w))].
Proof.
  intros Hr HL Hg Ht.
  destruct (Run_spec env s w tS Hr HL) as (w' & HR & Hc & Hj & Hx & Htm).
  destruct (ends_graceful env s tS t Hg Ht) as [HG HH].
  rewrite HH in *.
  exists (stopServer (server.registerBridge s)), w', (runJournal env s w tS).
  split; [exact HR|]. split; [exact Hc|]. split; [exact Hj|].
  assert ((deadline s tS <=? t) = false) as E by (apply Z.leb_gt; lia).
  split; [|split; [|split]].
  - unfold runJournal. cbv zeta. rewrite HH, E, andb_false_r.
    destruct (Z.leb_spec (deadline s tS) (rpcEnd env s tS)); [lia|].
    vm_compute. reflexivity.
  - unfold runJournal. cbv zeta. rewrite HH, E, andb_false_r.
    destruct (Z.leb_spec (deadline s tS) (rpcEnd env s tS)); [lia|].
    vm_compute. reflexivity.
  - rewrite Hx, bool_decide_eq_false_2 by lia. now rewrite list_lookup_middle.
  - now rewrite Htm, E.
Qed.

Lemma Run_graceful_in_time_witness :
  ∃ s' w' j,
    server.Run example.calm example.server example.started = Some (s', w')
    ∧ clock w' = 12
    ∧ journal w' = journal example.started ++ j
    ∧ occurrences StopCalled j = 0%nat.
Proof.
  destruct (Run_graceful_in_time example.calm example.server example.started 7 12)
    as (s' & w' & j & H1 & H2 & H3 & H4 & _).
  - split; vm_compute; reflexivity.
  - vm_compute; reflexivity.
  - vm_compute; reflexivity.
  - vm_compute; reflexivity.
  - exists s', w', j. auto.
Defined.

(** X11: with a graceful-shutdown timeout that is zero or negative nothing
    is waited for: the timer fires when the stop signal comes, the context
    is cancelled and the RPC server stopped at that moment, and [Run]
    returns then, whatever is in flight. *)
Theorem Run_without_grace env s w tS :
  ready s w →
  signals.Loop env (server.handler s) (clock w) = Some tS →
  server.ServerGracefulShutdownTimeout (server.cfg s) ≤ 0 →
  ∃ s' w' j1 j2,
    server.Run env s w = Some (s', w')
    ∧ clock w' = tS
    ∧ journal w'
      = journal w ++ j1
          ++ [ (tS, CancelCalled (length (contexts w))); (tS, StopCalled) ]
          ++ j2 ++ [ (tS, ShutdownReturned); (tS, RunReturned) ]
    ∧ contexts w' !! length (contexts w) = Some true
    ∧ grpc.stopped (server.GRPC s') = true
    ∧ timers w' = [].
Proof.
  intros Hr HL Hto.
  destruct (Run_spec env s w tS Hr HL) as (w' & HR & Hc & Hj & Hx & Htm).
  assert (deadline s tS = tS) as ED by (unfold deadline; lia).
  pose proof (httpEnd_bounds env s tS) as HB. pose proof (rpcEnd_ge env s tS) as HG.
  rewrite ED in *.
  assert (httpEnd env s tS = tS) as EH by lia.
  destruct (runJournal_forced env s w tS) as (j1 & j2 & EJ); [rewrite ED; lia|].
  rewrite ED, EH in *.
  exists (stopServer (server.registerBridge s)), w', j1, j2.
  split; [exact HR|]. split; [exact Hc|]. split; [now rewrite Hj, EJ|].
  split; [|split; [reflexivity|now rewrite Htm, Z.leb_refl]].
  rewrite Hx, bool_decide_eq_true_2 by lia. now rewrite list_lookup_middle.
Qed.

Lemma Run_without_grace_witness :
  ∃ s' w',
    server.Run example.stuck example.hasty example.started = Some (s', w')
    ∧ clock w' = 7
    ∧ grpc.stopped (server.GRPC s') = true.
Proof.
  destruct (Run_without_grace example.stuck example.hasty example.started 7)
    as (s' & w' & j1 & j2 & H1 & H2 & _ & _ & H3 & _).
  - split; vm_compute; reflexivity.
  - vm_compute; reflexivity.
  - vm_compute. discriminate.
  - exists s', w'. auto.
Defined.

(** What the goroutines that wake up do to the listeners: they close the
    one of the RPC server at most. *)
Lemma fire_listening g s w :
  server.httpListener (fst (server.fire g (s, w))) = server.httpListener s
  ∧ server.grpcListener (fst (server.fire g (s, w))) = server.grpcListener s
  ∧ (∀ x, x ∈ listening (snd (server.fire g (s, w))) → x ∈ listening w)
  ∧ (∀ x, x ∈ listening w → x ≠ port (server.grpcListener s) →
          x ∈ listening (snd (server.fire g (s, w)))).
Proof.
  destruct g as [l|l|wk c]; cbn; try (repeat split; auto; fail).
  split; [reflexivity|]. split; [reflexivity|]. split.
  - intros x Hx. apply elem_of_difference in Hx. tauto.
  - intros x Hx Hne. apply elem_of_difference. split; [exact Hx|].
    rewrite elem_of_singleton. exact Hne.
Qed.

Lemma fires_listening (gs : list Goroutine) s w :
  server.httpListener (fst (fold_left (λ sw g, server.fire g sw) gs (s, w)))
  = server.httpListener s
  ∧ server.grpcListener (fst (fold_left (λ sw g, server.fire g sw) gs (s, w)))
    = server.grpcListener s
  ∧ (∀ x, x ∈ listening (snd (fold_left (λ sw g, server.fire g sw) gs (s, w))) →
          x ∈ listening w)
  ∧ (∀ x, x ∈ listening w → x ≠ port (server.grpcListener s) →
          x ∈ listening (snd (fold_left (λ sw g, server.fire g sw) gs (s, w)))).
Proof.
  revert s w. induction gs as [|g gs IH]; intros s w; [cbn; auto|].
  cbn [fold_left].
  destruct (fire_listening g s w) as (Hh & Hg & Hsub & Hkeep).
  destruct (server.fire g (s, w)) as [s1 w1]. cbn [fst snd] in *.
  destruct (IH s1 w1) as (Hh' & Hg' & Hsub' & Hkeep').
  rewrite Hh', Hg', Hh, Hg. rewrite Hg in Hkeep'. auto 6.
Qed.

Lemma advance_listening t s w :
  server.httpListener (fst (server.advance t s w)) = server.httpListener s
  ∧ server.grpcListener (fst (server.advance t s w)) = server.grpcListener s
  ∧ (∀ x, x ∈ listening (snd (server.advance t s w)) → x ∈ listening w)
  ∧ (∀ x, x ∈ listening w → x ≠ port (server.grpcListener s) →
          x ∈ listening (snd (server.advance t s w))).
Proof.
  unfold server.advance.
  pose proof (fires_listening (List.filter (server.due t) (goroutines w)) s w) as H.
  destruct (fold_left _ _ _) as [s1 w1]. exact H.
Qed.

Lemma GracefulStop_listening env s w s' w' :
  grpc.stopped (server.GRPC s) = false →
  server.GRPC_GracefulStop env s w = Some (s', w') →
  server.httpListener s' = server.httpListener s
  ∧ server.grpcListener s' = server.grpcListener s
  ∧ ∀ x, x ∈ listening w' ↔ x ∈ listening w ∧ x ≠ port (server.grpcListener s).
Proof.
  intros Hs. unfold server.GRPC_GracefulStop. rewrite Hs.
  set (w1 := close (server.grpcListener s) (note GracefulStopCalled w)).
  destruct (earliest _ _) as [t|]; [|discriminate]. cbn [mbind option_bind].
  pose proof (advance_listening (Z.max (clock w1) t) s w1) as (Hh & Hg & Hsub & Hkeep).
  destruct (server.advance _ s w1) as [s2 w2]. cbn [fst snd] in *.
  intros [= <- <-]. cbn.
  split; [exact Hh|]. split; [exact Hg|].
  assert (∀ x, x ∈ listening w1 ↔ x ∈ listening w ∧ x ≠ port (server.grpcListener s)) as Hw1.
  { intros x. unfold w1. cbn. rewrite elem_of_difference, elem_of_singleton. tauto. }
  intros x. split.
  - intros Hx. now apply Hw1, Hsub.
  - intros [Hx Hne]. apply Hkeep; [now apply Hw1|exact Hne].
Qed.

Lemma Shutdown_listening env c s w s' w' :
  server.httpServer_Shutdown env c s w = Some (s', w') →
  (∀ x, x ∈ listening w' → x ∈ listening w ∧ x ≠ port (server.httpListener s))
  ∧ (∀ x, x ∈ listening w → x ≠ port (server.httpListener s) →
          x ≠ port (server.grpcListener s) → x ∈ listening w').
Proof.
  unfold server.httpServer_Shutdown.
  set (w1 := close (server.httpListener s) (note ShutdownCalled w)).
  destruct (earliest _ _) as [t|]; [|discriminate]. cbn [mbind option_bind].
  pose proof (advance_listening (Z.max (clock w1) t) s w1) as (_ & _ & Hsub & Hkeep).
  destruct (server.advance _ s w1) as [s2 w2]. cbn [fst snd] in *.
  intros [= <- <-]. cbn.
  assert (∀ x, x ∈ listening w1 ↔ x ∈ listening w ∧ x ≠ port (server.httpListener s)) as Hw1.
  { intros x. unfold w1. cbn. rewrite elem_of_difference, elem_of_singleton. tauto. }
  split.
  - intros x Hx. now apply Hw1, Hsub.
  - intros x Hx Hh Hg. apply Hkeep; [now apply Hw1|exact Hg].
Qed.

Lemma fires_registry (gs : list Goroutine) s w :
  DefaultRegisterer (snd (fold_left (λ sw g, server.fire g sw) gs (s, w)))
  = DefaultRegisterer w.
Proof.
  revert s w. induction gs as [|g gs IH]; intros s w; [reflexivity|].
  cbn [fold_left].
  destruct (server.fire g (s, w)) as [s1 w1] eqn:E.
  rewrite IH. destruct g; cbn in E; injection E as <- <-; reflexivity.
Qed.

Lemma advance_registry t s w :
  DefaultRegisterer (snd (server.advance t s w)) = DefaultRegisterer w.
Proof.
  unfold server.advance.
  pose proof (fires_registry (List.filter (server.due t) (goroutines w)) s w) as H.
  destruct (fold_left _ _ _) as [s1 w1]. exact H.
Qed.

Lemma GracefulStop_registry env s w s' w' :
  server.GRPC_GracefulStop env s w = Some (s', w') →
  DefaultRegisterer w' = DefaultRegisterer w.
Proof.
  unfold server.GRPC_GracefulStop.
  destruct (grpc.stopped (server.GRPC s)); [now intros [= <- <-]|].
  destruct (earliest _ _) as [t|]; [|discriminate]. cbn [mbind option_bind].
  match goal with
  | |- context [server.advance ?t0 s ?w0] =>
      pose proof (advance_registry t0 s w0) as HA;
      destruct (server.advance t0 s w0) as [s1 w1]
  end.
  intros [= <- <-]. exact HA.
Qed.

Lemma Shutdown_registry env c s w s' w' :
  server.httpServer_Shutdown env c s w = Some (s', w') →
  DefaultRegisterer w' = DefaultRegisterer w.
Proof.
  unfold server.httpServer_Shutdown.
  destruct (earliest _ _) as [t|]; [|discriminate]. cbn [mbind option_bind].
  match goal with
  | |- context [server.advance ?t0 s ?w0] =>
      pose proof (advance_registry t0 s w0) as HA;
      destruct (server.advance t0 s w0) as [s1 w1]
  end.
  intros [= <- <-]. exact HA.
Qed.

(** The ports and the registry when [Run] returns. *)
Lemma Run_ports_registry env s w s' w' :
  ready s w →
  server.Run env s w = Some (s', w') →
  (∀ x, x ∈ listening w'
        ↔ x ∈ listening w ∧ x ≠ port (server.httpListener s)
          ∧ x ≠ port (server.grpcListener s))
  ∧ DefaultRegisterer w' = DefaultRegisterer w.
Proof.
  intros Hr HR.
  destruct (Run_returns env s w s' w' Hr HR) as [tS HL].
  destruct Hr as [Hs Ht].
  unfold server.Run, server.Run_start, server.Run_wait in HR.
  cbn [context.WithCancel] in HR.
  match type of HR with
  | context [server.handler_Loop env ?s1 ?w4] =>
      assert (timers w4 = []) as Ht4
        by (unfold timers in *; cbn; rewrite !List.filter_app, Ht; reflexivity);
      destruct (Loop_spec env s1 w4 tS Ht4 HL) as [_ HLoop];
      rewrite HLoop in HR
  end.
  cbn [mbind option_bind] in HR.
  destruct (server.GRPC_GracefulStop _ _ _) as [[s2 w2]|] eqn:EG; [|discriminate].
  cbn [mbind option_bind] in HR.
  destruct (server.httpServer_Shutdown _ _ _ _) as [[s3 w3]|] eqn:ES; [|discriminate].
  cbn [mbind option_bind] in HR. injection HR as <- <-.
  split.
  - apply GracefulStop_listening in EG as (Hh & Hg & HG); [|exact Hs].
    apply Shutdown_listening in ES as [Hsub Hkeep].
    cbn in Hh, Hg, HG. rewrite Hh, Hg in *.
    intros x. cbn. split.
    + intros Hx. apply Hsub in Hx as [Hx ?]. apply HG in Hx. tauto.
    + intros (Hx & ? & ?). apply Hkeep; [apply HG|..]; auto.
  - apply GracefulStop_registry in EG. apply Shutdown_registry in ES.
    change (DefaultRegisterer w3 = DefaultRegisterer w).
    rewrite ES, EG. reflexivity.
Qed.

(** X12: when [Run] returns, the two listeners of the server are closed and
    no other port has been touched.  After [New] and a [Run] that returns,
    the ports that are bound are those that were bound before [New]. *)
Theorem Run_closes_listeners env s w s' w' :
  ready s w →
  server.Run env s w = Some (s', w') →
  listening w'
  = listening w ∖ {[port (server.httpListener s); port (server.grpcListener s)]}
  ∧ ∀ cfg w0 s0,
      server.New cfg w0 = (server.Ok s0, w) →
      server.httpListener s = server.httpListener s0 →
      server.grpcListener s = server.grpcListener s0 →
      listening w' = listening w0.
Proof.
  intros Hr HR.
  destruct (Run_ports_registry env s w s' w' Hr HR) as [Hall _].
  split.
  - apply set_eq. intros x.
    rewrite Hall, elem_of_difference, elem_of_union, !elem_of_singleton. tauto.
  - intros cfg w0 s0 HNew Eh Eg.
    apply New_Ok in HNew as (lh & w1 & lg & w2 & Hlh & Hlg & Hreg & ->).
    cbn in Eh, Eg. rewrite Eh, Eg in Hall.
    apply Listen_binds in Hlh as [Hfh ->].
    apply Listen_binds in Hlg as [Hfg ->].
    apply MustRegister_Some in Hreg as [_ ->].
    cbn in *.
    apply set_eq. intros x. rewrite Hall, !elem_of_union, !elem_of_singleton.
    rewrite !elem_of_union, !elem_of_singleton in Hfg.
    split; [tauto|]. intros Hx.
    split; [tauto|]. split; intros ->; tauto.
Qed.

Lemma Run_closes_listeners_witness :
  ∃ s' w',
    server.Run example.calm example.server example.started = Some (s', w')
    ∧ listening w' = listening example.world.
Proof.
  destruct (server.Run example.calm example.server example.started)
    as [[s' w']|] eqn:HR.
  - exists s', w'. split; [reflexivity|].
    refine (proj2 (Run_closes_listeners example.calm example.server example.started
                     s' w' _ HR) example.other example.world example.server _ _ _).
    + split; vm_compute; reflexivity.
    + vm_compute; reflexivity.
    + reflexivity.
    + reflexivity.
  - vm_compute in HR. discriminate HR.
Defined.

(** X13: a server cannot be made a second time in the same process, even
    after a full shutdown: when [New] has made a Server on given ports and
    [Run] has returned, the ports are free again but the histogram is still
    registered, so [New] on the same Configuration binds both listeners and
    then panics. *)
Theorem New_after_Run_panics env cfg w0 s w s' w' :
  server.New cfg w0 = (server.Ok s, w) →
  timers w0 = [] →
  server.Run env s w = Some (s', w') →
  0 < server.HTTPListenPort cfg ≤ 65535 →
  0 < server.GRPCListenPort cfg ≤ 65535 →
  ∃ msg w2,
    server.New cfg w' = (server.Panic msg, w2)
    ∧ listening w2
      = {[server.HTTPListenPort cfg; server.GRPCListenPort cfg]} ∪ listening w0.
Proof.
  intros HNew Ht0 HR Hhp Hgp.
  assert (ready s w) as Hr.
  { pose proof HNew as H. apply New_Ok in H as (lh & w1 & lg & w2 & Hlh & Hlg & Hreg & ->).
    apply Listen_binds in Hlh as [_ ->]. apply Listen_binds in Hlg as [_ ->].
    apply MustRegister_Some in Hreg as [_ ->]. split; [reflexivity|exact Ht0]. }
  destruct (Run_ports_registry env s w s' w' Hr HR) as [Hall Hreg'].
  pose proof (New_registers _ _ _ _ HNew) as Hin. rewrite <- Hreg' in Hin.
  apply New_Ok in HNew as (lh & w1 & lg & w2 & Hlh & Hlg & Hreg & ->).
  destruct (Listen_port _ _ _ _ Hlh) as [_ Eh]. destruct (Listen_port _ _ _ _ Hlg) as [_ Eg].
  assert (port lh = server.HTTPListenPort cfg) as Eh' by (apply Eh; lia).
  assert (port lg = server.GRPCListenPort cfg) as Eg' by (apply Eg; lia).
  clear Eh Eg.
  apply Listen_binds in Hlh as [Hfh ->]. apply Listen_binds in Hlg as [Hfg ->].
  apply MustRegister_Some in Hreg as [_ ->].
  cbn in Hall, Hfg, Hfh. rewrite Eh' in Hall, Hfg, Hfh. rewrite Eg' in Hall, Hfg.
  rewrite !elem_of_union, !elem_of_singleton in Hfg.
  assert (∀ x, x ∈ listening w' ↔ x ∈ listening w0) as Hback.
  { intros x. rewrite Hall, !elem_of_union, !elem_of_singleton.
    split; [tauto|]. intros Hx. split; [tauto|]. split; intros ->; tauto. }
  assert (server.HTTPListenPort cfg ∉ listening w') as F1 by (rewrite Hback; exact Hfh).
  unfold server.New.
  rewrite (Listen_free _ _ Hhp F1).
  rewrite Listen_free; [|exact Hgp|].
  - unfold prometheus.MustRegister. rewrite bool_decide_eq_true_2 by exact Hin.
    eexists _, _. split; [reflexivity|]. cbn.
    apply set_eq. intros x. rewrite !elem_of_union, !elem_of_singleton, Hback. tauto.
  - cbn. rewrite !elem_of_union, !elem_of_singleton, Hback. tauto.
Qed.

Lemma New_after_Run_panics_witness :
  ∃ s' w' msg w2,
    server.Run example.calm example.server example.started = Some (s', w')
    ∧ server.New example.other w' = (server.Panic msg, w2).
Proof.
  destruct (server.Run example.calm example.server example.started)
    as [[s' w']|] eqn:HR.
  - destruct (New_after_Run_panics example.calm example.other example.world
                example.server example.started s' w') as (msg & w2 & HP & _).
    + vm_compute; reflexivity.
    + reflexivity.
    + exact HR.
    + vm_compute. split; [reflexivity|discriminate].
    + vm_compute. split; [reflexivity|discriminate].
    + exists s', w', msg, w2. split; [reflexivity|exact HP].
  - vm_compute in HR. discriminate HR.
Defined.

(** ** The router and the chains at work *)

Lemma HTTP_after_Handle (added : list (string * mux.RouteHandler)) s :
  server.HTTP (fold_left (λ s ph, server.HTTP_Handle (fst ph) (snd ph) s) added s)
  = server.HTTP s
      ++ map (λ ph, {| mux.template := fst ph; mux.isPrefix := false;
                       mux.target := snd ph |}) added.
Proof.
  revert s. induction added as [|[p h] added IH]; intros s.
  - cbn. now rewrite app_nil_r.
  - cbn [fold_left map]. rewrite IH.
    unfold server.HTTP_Handle, mux.Handle. cbn [server.HTTP server.set_HTTP fst snd].
    now rewrite <- app_assoc.
Qed.

Lemma Match_app (rt1 rt2 : mux.Router) req :
  mux.Match (rt1 ++ rt2) req
  = match mux.Match rt1 req with
    | Some r => Some r
    | None => mux.Match rt2 req
    end.
Proof.
  unfold mux.Match. induction rt1 as [|r rt1 IH]; [reflexivity|].
  cbn. destruct (mux.matches (http.URL req) r); [reflexivity|exact IH].
Qed.

(** X14: the routes [New] registers come first in the router: however many
    routes the author of the service adds afterwards, "/metrics", "/traces"
    and everything under "/debug/pprof" keep going to their own handlers,
    and a request for any other path is served by the added routes as if
    they were alone. *)
Theorem builtin_routes_stay cfg w s w' (added : list (string * mux.RouteHandler)) req :
  server.New cfg w = (server.Ok s, w') →
  (http.URL req = "/metrics" →
   mux.ServeHTTP
     (server.HTTP (fold_left (λ s ph, server.HTTP_Handle (fst ph) (snd ph) s) added s)) req
   = prometheus.Handler req)
  ∧ (http.URL req = "/traces" →
     mux.ServeHTTP
       (server.HTTP (fold_left (λ s ph, server.HTTP_Handle (fst ph) (snd ph) s) added s)) req
     = loki.Handler req)
  ∧ (String.prefix "/debug/pprof" (http.URL req) = true →
     mux.ServeHTTP
       (server.HTTP (fold_left (λ s ph, server.HTTP_Handle (fst ph) (snd ph) s) added s)) req
     = server.DefaultServeMux req)
  ∧ (http.URL req ≠ "/metrics" → http.URL req ≠ "/traces" →
     String.prefix "/debug/pprof" (http.URL req) = false →
     mux.ServeHTTP
       (server.HTTP (fold_left (λ s ph, server.HTTP_Handle (fst ph) (snd ph) s) added s)) req
     = mux.ServeHTTP
         (fold_left (λ rt ph, mux.Handle (fst ph) (snd ph) rt) added mux.NewRouter) req).
Proof.
  intros H. apply New_Ok in H as (lh & w1 & lg & w2 & _ & _ & _ & ->).
  rewrite HTTP_after_Handle. cbn [server.HTTP].
  unfold mux.ServeHTTP. rewrite Match_app.
  unfold mux.PathPrefix_Handler, mux.Handle, mux.NewRouter. cbn [app].
  unfold mux.Match. cbn [find mux.matches mux.isPrefix mux.template].
  split; [|split; [|split]].
  - intros ->. reflexivity.
  - intros ->. reflexivity.
  - intros Hp.
    destruct (String.eqb_spec "/metrics" (http.URL req)) as [E|_];
      [rewrite <- E in Hp; discriminate Hp|].
    destruct (String.eqb_spec "/traces" (http.URL req)) as [E|_];
      [rewrite <- E in Hp; discriminate Hp|].
    now rewrite Hp.
  - intros H1 H2 Hp.
    destruct (String.eqb_spec "/metrics" (http.URL req)) as [E|_]; [congruence|].
    destruct (String.eqb_spec "/traces" (http.URL req)) as [E|_]; [congruence|].
    rewrite Hp.
    assert (∀ rt0,
              fold_left (λ rt ph, mux.Handle (fst ph) (snd ph) rt) added rt0
              = rt0 ++ map (λ ph, {| mux.template := fst ph; mux.isPrefix := false;
                                      mux.target := snd ph |}) added) as ->.
    { induction added as [|[p h] added IH]; intros rt0; cbn.
      - now rewrite app_nil_r.
      - rewrite IH. unfold mux.Handle. now rewrite <- app_assoc. }
    reflexivity.
Qed.

Lemma builtin_routes_stay_witness :
  ∃ s w',
    server.New example.other example.world = (server.Ok s, w')
    ∧ mux.ServeHTTP
        (server.HTTP
           (fold_left (λ s ph, server.HTTP_Handle (fst ph) (snd ph) s)
              [("/metrics", example.pong)] s))
        {| http.Method := "GET"; http.URL := "/metrics"; http.Header := [];
           http.Body := "" |}
      = prometheus.Handler
          {| http.Method := "GET"; http.URL := "/metrics"; http.Header := [];
             http.Body := "" |}.
Proof.
  eexists _, _. split; [vm_compute; reflexivity|].
  match goal with
  | |- mux.ServeHTTP (server.HTTP (fold_left _ _ ?s)) ?req = _ =>
      refine (proj1 (builtin_routes_stay example.other example.world s
                       (snd (server.New example.other example.world))
                       [("/metrics", example.pong)] req _) _)
  end.
  - vm_compute; reflexivity.
  - reflexivity.
Defined.



(** X16: [Stop] unblocks [Run].  A [Run] on a server that has not been
    stopped blocks for ever when no stop signal comes; on the server after
    [Stop] it does not wait: its [Loop] returns at once, each call of the
    shutdown sequence is made once, and [Run] returns within the
    graceful-shutdown timeout with the RPC server stopped. *)
Theorem Stop_unblocks_Run env s w :
  ready s w →
  (signals.quit (server.handler s) = false → stopAt env = None →
   server.Run env s w = None)
  ∧ ∃ s' w' j,
      server.Run env (server.Stop s) w = Some (s', w')
      ∧ journal w' = journal w ++ j
      ∧ In (clock w, LoopReturned) j
      ∧ occurrences GracefulStopCalled j = 1%nat
      ∧ occurrences ShutdownCalled j = 1%nat
      ∧ occurrences RunReturned j = 1%nat
      ∧ clock w' ≤ clock w + Z.max 0 (server.ServerGracefulShutdownTimeout (server.cfg s))
      ∧ grpc.stopped (server.GRPC s') = true.
Proof.
  intros Hr. split.
  - intros Hq Hno. apply Run_blocked; [exact Hr|].
    unfold signals.Loop. now rewrite Hq, Hno.
  - assert (ready (server.Stop s) w) as Hr' by exact Hr.
    destruct (Run_spec env (server.Stop s) w (clock w) Hr' eq_refl)
      as (w' & HR & Hc & Hj & _).
    destruct (runJournal_once env (server.Stop s) w (clock w)) as (_ & H1 & H2 & H3 & H4).
    pose proof (httpEnd_bounds env (server.Stop s) (clock w)) as HB.
    eexists _, w', _. split; [exact HR|]. split; [exact Hj|].
    split; [unfold runJournal; cbv zeta; rewrite in_app_iff; left; cbn; auto|].
    do 3 (split; [assumption|]).
    split; [|reflexivity].
    rewrite Hc. unfold deadline in HB. cbn [server.Stop server.set_handler server.cfg] in HB.
    lia.
Qed.

Lemma Stop_unblocks_Run_witness :
  server.Run example.quiet example.server example.started = None
  ∧ ∃ s' w',
      server.Run example.quiet (server.Stop example.server) example.started = Some (s', w')
      ∧ grpc.stopped (server.GRPC s') = true.
Proof.
  destruct (Stop_unblocks_Run example.quiet example.server example.started)
    as [Hblock (s' & w' & j & HR & _ & _ & _ & _ & _ & _ & Hs)].
  - split; vm_compute; reflexivity.
  - split; [apply Hblock; reflexivity|].
    exists s', w'. split; [exact HR|exact Hs].
Defined.
